(** * Scored-recommendation routines of the multi-model endpoint notebook

    A shallow embedding of the two scoring routines of
    [multi-model-endpoint/multiple_recommendation_models_endpoint.ipynb],
    [get_recommendations_for_user] (movies) and
    [get_music_recommendations_for_user] (songs), and of the Python
    built-ins they call.

    What the routines read from the session is an argument here: the text
    of the candidate file (opened with success), the name of the endpoint,
    the metadata tables [movie_df] and [song_df], and the hosted endpoint
    itself, an external collaborator given as a state machine that answers
    a request with the decoded text of the response body or fails.  Every
    call made to it and every line printed is recorded in the world, and an
    exception keeps the world as it was when it was raised.

    Text is modelled as byte strings; on UTF-8 text bytewise lexicographic
    order is code point order, which is the order in which Python compares
    [str].  [int()] reads a literal of ASCII characters here; what the
    built-in makes of a literal with other characters (digits and spaces of
    other scripts) is a parameter, as are [float()] and the comparison of
    floating-point keys in the music routine. *)

From Stdlib Require Import ZArith String Ascii Sorted.
From stdpp Require Import base list strings pretty.

Local Open Scope string_scope.
Local Open Scope Z_scope.

(** ** Python built-ins used by the notebook *)

Module Py.

(** Exceptions the routines can raise.  [EndpointError] stands for every
    failure of the inference call (transport, model not found, decoding of
    the response body). *)
Inductive exn : Type :=
| IndexError
| ValueError
| UnboundLocalError
| EndpointError (msg : string).

Inductive result (A : Type) : Type :=
| Ok (a : A)
| Raise (e : exn).
Arguments Ok {A} a.
Arguments Raise {A} e.

(** The values passed as [user_id] at the call sites: [100], [235]
    (integers) and ['30544.0'] (a string). *)
Inductive value : Type :=
| PyInt (z : Z)
| PyStr (s : string).

(** [str(x)] *)
Definition str (x : value) : string :=
  match x with
  | PyInt z => pretty z
  | PyStr s => s
  end.

(** [s.split(sep)] for a separator of one character: a field ends at
    each occurrence of [sep]; the result is never empty. *)
Fixpoint split (sep : ascii) (s : string) : list string :=
  match s with
  | EmptyString => [EmptyString]
  | String a s' =>
      if Ascii.eqb a sep then EmptyString :: split sep s'
      else match split sep s' with
           | f :: fs => String a f :: fs
           | [] => [String a EmptyString]
           end
  end.

(** [sep.join(l)] *)
Fixpoint join (sep : string) (l : list string) : string :=
  match l with
  | [] => EmptyString
  | [x] => x
  | x :: l' => x ++ sep ++ join sep l'
  end.

(** [l.pop(0)]: the first element and the list left behind. *)
Definition pop0 {A} (l : list A) : result (A * list A) :=
  match l with
  | [] => Raise IndexError
  | x :: l' => Ok (x, l')
  end.

(** [l[i]], negative indices counting from the end. *)
Definition getitem {A} (l : list A) (i : Z) : result A :=
  let j := if 0 <=? i then i else Z.of_nat (length l) + i in
  if j <? 0 then Raise IndexError
  else match l !! Z.to_nat j with
       | Some x => Ok x
       | None => Raise IndexError
       end.

(** [range(lo, hi)] *)
Definition range (lo hi : Z) : list Z :=
  (fun k => lo + Z.of_nat k) <$> seq 0 (Z.to_nat (hi - lo)).

(** [l[0:n]] for [0 <= n] *)
Definition slice0 {A} (n : nat) (l : list A) : list A := take n l.

(** [f.readlines()] of a file opened in text mode with universal
    newlines: a line ends after ["\n"], ["\r"] or ["\r\n"], each read as
    ["\n"]; a last line without a line end is kept as it is. *)
Fixpoint readlines_go (cur : string) (s : string) : list string :=
  match s with
  | EmptyString =>
      match cur with EmptyString => [] | _ => [String.rev cur] end
  | String a s' =>
      if Ascii.eqb a "010" then
        String.rev (String "010" cur) :: readlines_go EmptyString s'
      else if Ascii.eqb a "013" then
        match s' with
        | String b s'' =>
            if Ascii.eqb b "010"
            then String.rev (String "010" cur) :: readlines_go EmptyString s''
            else String.rev (String "010" cur) :: readlines_go EmptyString s'
        | EmptyString => [String.rev (String "010" cur)]
        end
      else readlines_go (String a cur) s'
  end.
Definition readlines (s : string) : list string := readlines_go EmptyString s.

(** White space skipped by [int()] around the literal: the white space of
    the C locale, tab to carriage return and the space. *)
Definition isspace (a : ascii) : bool :=
  let n := N_of_ascii a in
  (((9 <=? n) && (n <=? 13)) || (n =? 32))%N.

Fixpoint lstrip (l : list ascii) : list ascii :=
  match l with
  | a :: l' => if isspace a then lstrip l' else l
  | [] => []
  end.

Definition strip (l : list ascii) : list ascii :=
  reverse (lstrip (reverse (lstrip l))).

Definition digit (a : ascii) : option Z :=
  let n := N_of_ascii a in
  if ((48 <=? n) && (n <=? 57))%N then Some (Z.of_N n - 48) else None.

(** Decimal digits, single underscores allowed between two digits. *)
Fixpoint digits (acc : Z) (after_digit : bool) (l : list ascii) : option Z :=
  match l with
  | [] => if after_digit then Some acc else None
  | a :: l' =>
      match digit a with
      | Some d => digits (10 * acc + d) true l'
      | None =>
          if Ascii.eqb a "_" && after_digit then digits acc false l'
          else None
      end
  end.

(** All the characters are ASCII. *)
Definition is_ascii (l : list ascii) : bool :=
  forallb (fun a => (N_of_ascii a <? 128)%N) l.

(** [int(s)], base ten, of Python 3.6, the version of the notebook.  The
    white space of the C locale around the literal is skipped.  A literal of
    ASCII characters is read here: a sign at most, then digits, with single
    underscores between digits and no bound on their number.  For a literal
    with other characters the built-in looks them up in the Unicode tables
    of its version; its result on such a literal is [int_unicode]. *)
Definition int (int_unicode : string -> result Z) (s : string) : result Z :=
  let body := strip (list_ascii_of_string s) in
  if is_ascii body then
    let signed :=
      match body with
      | a :: l' =>
          if Ascii.eqb a "-" then (-1, l')
          else if Ascii.eqb a "+" then (1, l')
          else (1, body)
      | [] => (1, body)
      end in
    match digits 0 false signed.2 with
    | Some n => Ok (signed.1 * n)
    | None => Raise ValueError
    end
  else int_unicode (string_of_list_ascii body).

(** Insertion of [x] in front of a list sorted on decreasing keys: [x]
    passes the elements whose key is strictly above its own and stops at
    the first other one. *)
Fixpoint insert_desc {A} (key : A -> string) (x : A) (l : list A) : list A :=
  match l with
  | [] => [x]
  | y :: l' =>
      if String.ltb (key x) (key y) then y :: insert_desc key x l'
      else x :: l
  end.

(** [sorted(l, key=key, reverse=True)] on string keys: the stable sort on
    decreasing keys (elements with equal keys keep their order). *)
Fixpoint sorted_reverse {A} (key : A -> string) (l : list A) : list A :=
  match l with
  | [] => []
  | x :: l' => insert_desc key x (sorted_reverse key l')
  end.

End Py.


Import Py.

(** ** The world of a run *)

(** One call of [runtime_client.invoke_endpoint], by its keyword arguments. *)
Record request : Type := Request {
  EndpointName : string;
  ContentType : string;
  TargetModel : string;
  Body : string
}.

(** What a run can change: the state of the hosted endpoint, the calls made
    to it so far (oldest first) and the text printed so far, one entry per
    call of [print], without its line end. *)
Record world (EP : Type) : Type := World {
  hosted : EP;
  requests : list request;
  stdout : list string
}.
Arguments World {EP} _ _ _.
Arguments hosted {EP} _.
Arguments requests {EP} _.
Arguments stdout {EP} _.

(** Local variables that outlive one turn of the scoring loop:
    [predictions], the accumulator of [[item, prediction]] pairs, and [user],
    unbound until the loop body has run once. *)
Record locals : Type := Locals {
  predictions : list (string * string);
  user : option string
}.

(** Rows of the metadata tables, by the two columns the routines read:
    [movie_df['movie id']], [movie_df['movie title']] and
    [song_df['short_song_id']], [song_df['title']]. *)
Record movie_row : Type := MovieRow {
  movie_id_col : Z;
  movie_title_col : string
}.

Record song_row (float : Type) : Type := SongRow {
  short_song_id_col : float;
  title_col : string
}.
Arguments SongRow {float} _ _.
Arguments short_song_id_col {float} _.
Arguments title_col {float} _.

(** A statement that may raise: the world is kept up to the exception. *)
Definition M (EP A : Type) : Type := world EP -> result A * world EP.

Definition ret {EP A} (a : A) : M EP A := fun w => (Ok a, w).

Definition bind {EP A B} (m : M EP A) (k : A -> M EP B) : M EP B :=
  fun w =>
    match m w with
    | (Ok a, w') => k a w'
    | (Raise e, w') => (Raise e, w')
    end.

Definition lift {EP A} (r : result A) : M EP A := fun w => (r, w).

Notation "'let*' x ':=' m 'in' k" := (bind m (fun x => k))
  (at level 10, x pattern, m at level 200, k at level 200).

(** [for x in xs: body], the loop state passed from turn to turn. *)
Fixpoint for_in {EP A S} (xs : list A) (body : A -> S -> M EP S) (s : S) : M EP S :=
  match xs with
  | [] => ret s
  | x :: xs' => let* s' := body x s in for_in xs' body s'
  end.

(** [print(a, b, ...)]: the arguments separated by one space. *)
Definition print {EP} (args : list string) : M EP unit :=
  fun w => (Ok tt, World (hosted w) (requests w) (stdout w ++ [join " " args])).

(** [v[0]] of a numpy array of titles. *)
Definition values0 (v : list string) : result string := getitem v 0.

(** Number of leading fields removed by [n] calls of [pop(0)]. *)
Fixpoint pop_front (n : nat) (split_data : list string) : result (list string) :=
  match n with
  | O => Ok split_data
  | S n' =>
      match pop0 split_data with
      | Ok (_, rest) => pop_front n' rest
      | Raise e => Raise e
      end
  end.

(** What one turn of a loop reads from a line: [split_data] once the
    labels are gone, [user] and [item]. *)
Record candidate_row : Type := CandidateRow {
  row_user : string;
  row_item : string;
  row_data : list string
}.

Definition parse_row (labels : nat) (line : string) : result candidate_row :=
  match pop_front labels (split "," line) with
  | Ok split_data =>
      match getitem split_data 0 with
      | Ok user =>
          match getitem split_data 1 with
          | Ok item => Ok (CandidateRow user item split_data)
          | Raise e => Raise e
          end
      | Raise e => Raise e
      end
  | Raise e => Raise e
  end.

(** The rows of a list of lines, a line that cannot be read left out. *)
Definition rows_of (labels : nat) (lines : list string) : list candidate_row :=
  omap (fun line =>
          match parse_row labels line with
          | Ok row => Some row
          | Raise _ => None
          end) lines.

(** The rows of a user, in the order of the lines. *)
Definition matching (labels : nat) (predictions_for_user : string)
    (lines : list string) : list candidate_row :=
  filter (fun row => row_user row = predictions_for_user) (rows_of labels lines).

(** The field holds no separator. *)
Fixpoint free_of (sep : ascii) (field : string) : bool :=
  match field with
  | EmptyString => true
  | String a field' => negb (Ascii.eqb a sep) && free_of sep field'
  end.

(** The lines the loop bound [len(contents) - 1] reaches. *)
Definition examined (contents : list string) : list string :=
  take (length contents - 1)%nat contents.

Section Routines.

Context {EP : Type}.

(** [runtime_client.invoke_endpoint(...)['Body'].read().decode('utf-8')]:
    the answer of the hosted endpoint and its next state. *)
Variable endpoint : request -> EP -> result string * EP.

(** The session's [endpoint_name]. *)
Variable endpoint_name : string.

(** The call of the endpoint, recorded in the world. *)
Definition invoke_endpoint (req : request) : M EP string :=
  fun w =>
    let (prediction, ep) := endpoint req (hosted w) in
    (prediction, World ep (requests w ++ [req]) (stdout w)).

Definition csv_request (model_name payload : string) : request :=
  Request endpoint_name "text/csv" model_name payload.

(** *** Movies *)

(** [int()] on a literal that is not ASCII. *)
Variable int_unicode : string -> result Z.

Variable movie_df : list movie_row.

(** Body of the loop of [get_recommendations_for_user]. *)
Definition movie_step (model_name predictions_for_user : string)
    (contents : list string) (i : Z) (loc : locals) : M EP locals :=
  let* line := lift (getitem contents i) in
  let split_data := split "," line in
  let* (original_value, split_data) := lift (pop0 split_data) in
  let* (original_value, split_data) := lift (pop0 split_data) in
  let* user := lift (getitem split_data 0) in
  let* item := lift (getitem split_data 1) in
  if String.eqb user predictions_for_user then
    let payload := join "," split_data in
    let* prediction := invoke_endpoint (csv_request model_name payload) in
    ret (Locals (predictions loc ++ [(item, prediction)]) (Some user))
  else ret (Locals (predictions loc) (Some user)).

Definition score_movies (model_name predictions_for_user : string)
    (contents : list string) : M EP locals :=
  for_in (range 0 (Z.of_nat (length contents) - 1))
    (movie_step model_name predictions_for_user contents)
    (Locals [] None).

(** [sorted(predictions, key = lambda x: x[1], reverse=True)] and
    [sorted_predcitions[0:9]], the same two lines in both routines. *)
Definition sorted_predcitions (predictions : list (string * string))
  : list (string * string) :=
  sorted_reverse snd predictions.

Definition recommendations (predictions : list (string * string))
  : list (string * string) :=
  slice0 9 (sorted_predcitions predictions).

(** [movie_df.loc[movie_df['movie id'] == movie_id]] *)
Definition movie_match (movie_id : Z) : list movie_row :=
  filter (fun row => movie_id_col row = movie_id) movie_df.

(** Title of one recommended movie. *)
Definition movie_title (rec : string * string) : result string :=
  match int int_unicode rec.1 with
  | Ok movie_id => values0 (movie_title_col <$> movie_match movie_id)
  | Raise e => Raise e
  end.

(** The display stage of [get_recommendations_for_user]. *)
Definition show_movies (predictions_for_user : string) (loc : locals) : M EP unit :=
  let recommendations := recommendations (predictions loc) in
  let* _ := print ["Recommended movies for user with id : "; predictions_for_user] in
  for_in recommendations
    (fun rec _ =>
       let* movie_id := lift (int int_unicode rec.1) in
       let movie_match := movie_match movie_id in
       let* movie_titile := lift (values0 (movie_title_col <$> movie_match)) in
       let* shown := lift (values0 (movie_title_col <$> movie_match)) in
       print [String "009" EmptyString; shown])
    tt.

Definition get_recommendations_for_user (model_name : string) (user_id : value)
    (show_predictions : bool) (test_data : string) : M EP unit :=
  let predictions_for_user := str user_id in
  let contents := readlines test_data in
  let* loc := score_movies model_name predictions_for_user contents in
  if show_predictions then show_movies predictions_for_user loc
  else ret tt.

(** *** Songs *)

(** [float(s)] and [==] on the floating-point keys of [song_df]. *)
Context {float : Type}.
Variable float_of : string -> result float.
Variable float_eqb : float -> float -> bool.

Variable song_df : list (song_row float).

(** Body of the loop of [get_music_recommendations_for_user]. *)
Definition music_step (model_name predictions_for_user : string)
    (contents : list string) (i : Z) (loc : locals) : M EP locals :=
  let* line := lift (getitem contents i) in
  let split_data := split "," line in
  let* (original_value, split_data) := lift (pop0 split_data) in
  let* user := lift (getitem split_data 0) in
  let* item := lift (getitem split_data 1) in
  if String.eqb user predictions_for_user then
    let payload := join "," split_data in
    let* prediction := invoke_endpoint (csv_request model_name payload) in
    ret (Locals (predictions loc ++ [(item, prediction)]) (Some user))
  else ret (Locals (predictions loc) (Some user)).

Definition score_songs (model_name predictions_for_user : string)
    (contents : list string) : M EP locals :=
  for_in (range 0 (Z.of_nat (length contents) - 1))
    (music_step model_name predictions_for_user contents)
    (Locals [] None).

(** [song_df.loc[song_df['short_song_id'] == song_id]] *)
Definition song_match (song_id : float) : list (song_row float) :=
  List.filter (fun row => float_eqb (short_song_id_col row) song_id) song_df.

(** Title of one recommended song. *)
Definition song_title (rec : string * string) : result string :=
  match float_of rec.1 with
  | Ok song_id => values0 (title_col <$> song_match song_id)
  | Raise e => Raise e
  end.

(** The display stage of [get_music_recommendations_for_user]; its header
    reads the loop variable [user]. *)
Definition show_songs (loc : locals) : M EP unit :=
  let recommendations := recommendations (predictions loc) in
  let* user :=
    lift (match user loc with
          | Some user => Ok user
          | None => Raise UnboundLocalError
          end) in
  let* _ := print ["Recommended songs for user with id : "; user] in
  for_in recommendations
    (fun rec _ =>
       let* song_id := lift (float_of rec.1) in
       let song_match := song_match song_id in
       let* song_title := lift (values0 (title_col <$> song_match)) in
       print [String "009" EmptyString; song_title])
    tt.

Definition get_music_recommendations_for_user (model_name : string)
    (user_id : value) (show_predictions : bool) (test_data : string) : M EP unit :=
  let predictions_for_user := str user_id in
  let contents := readlines test_data in
  let* loc := score_songs model_name predictions_for_user contents in
  if show_predictions then show_songs loc
  else ret tt.

(** *** The two loops as one *)

(** One turn of either loop on the line itself, [labels] fields removed
    from its front. *)
Definition score_line (labels : nat) (model_name predictions_for_user : string)
    (line : string) (loc : locals) : M EP locals :=
  let* row := lift (parse_row labels line) in
  if String.eqb (row_user row) predictions_for_user then
    let* prediction :=
      invoke_endpoint (csv_request model_name (join "," (row_data row))) in
    ret (Locals (predictions loc ++ [(row_item row, prediction)])
           (Some (row_user row)))
  else ret (Locals (predictions loc) (Some (row_user row))).

Definition score_lines (labels : nat) (model_name predictions_for_user : string)
    (lines : list string) (loc : locals) : M EP locals :=
  for_in lines (score_line labels model_name predictions_for_user) loc.

End Routines.

(** [a] may stand before [b] in a list sorted on decreasing keys: the key
    of [b] is at most the key of [a] in the order of strings. *)
Definition key_ge {A} (key : A -> string) (a b : A) : Prop :=
  String.leb (key b) (key a) = true.

(** The call made for a row of the user. *)
Definition request_of (endpoint_name model_name : string) (row : candidate_row)
  : request :=
  Request endpoint_name "text/csv" model_name (join "," (row_data row)).

(** The user the loop variable holds after the lines, [before] them. *)
Definition last_user (labels : nat) (lines : list string) (before : option string)
  : option string :=
  match last (rows_of labels lines) with
  | Some row => Some (row_user row)
  | None => before
  end.

(** The lines printed: the two headers and a title after its tab. *)
Definition tab : string := String "009" EmptyString.

Definition title_line (title : string) : string := join " " [tab; title].

Definition movie_header (predictions_for_user : string) : string :=
  join " " ["Recommended movies for user with id : "; predictions_for_user].

Definition song_header (user : string) : string :=
  join " " ["Recommended songs for user with id : "; user].

(** The world after more lines have been printed. *)
Definition printed {EP} (w : world EP) (lines : list string) : world EP :=
  World (hosted w) (requests w) (stdout w ++ lines).

(** The loop of either display stage, the title of a recommendation given
    by [resolve]. *)
Definition show_titles {EP} (resolve : string * string -> result string)
    (recommendations : list (string * string)) : M EP unit :=
  for_in recommendations
    (fun rec _ => let* title := lift (resolve rec) in print [tab; title])
    tt.

(** ** Concrete surroundings for the examples *)

(** An endpoint that answers from a script, one answer per call, whatever
    the request, and fails once the script is used up. *)
Definition scripted (req : request) (answers : list string)
  : result string * list string :=
  match answers with
  | prediction :: rest => (Ok prediction, rest)
  | [] => (Raise (EndpointError "no answer left"), [])
  end.

(** [int()] of the examples, whose item ids are ASCII: a literal with
    other characters, which no example has, is refused. *)
Definition no_unicode (s : string) : result Z := Raise ValueError.

(** The floating-point parameters on keys written as whole numbers, as
    the keys of the examples are: there [float()] and [==] agree with
    [int()] and the equality of integers. *)
Definition whole_float_of : string -> result Z := int no_unicode.
Definition whole_float_eqb : Z -> Z -> bool := Z.eqb.

Definition nl : string := String "010" EmptyString.

(** A world in which nothing has been called or printed yet. *)
Definition start {EP} (ep : EP) : world EP := World ep [] [].

(** The recommendations selected after a scoring loop. *)
Definition ranked {EP} (run : result locals * world EP)
  : result (list (string * string)) :=
  match run.1 with
  | Ok loc => Ok (recommendations (predictions loc))
  | Raise e => Raise e
  end.

(** The locals a scoring loop ends with, the initial ones if it raised. *)
Definition locals_after {EP} (run : result locals * world EP) : locals :=
  match run.1 with
  | Ok loc => loc
  | Raise _ => Locals [] None
  end.

(** A line of the movie file (two labels) and of the music file (one
    label), with one feature after the item. *)
Definition movie_line (user item : string) : string :=
  "5,0," ++ user ++ "," ++ item ++ ",7" ++ nl.

Definition music_line (user item : string) : string :=
  "1," ++ user ++ "," ++ item ++ ",7" ++ nl.

(** The candidate file of the end-to-end scenario: exactly three rows, all
    of user ["100"], for the items ["1"], ["2"] and ["3"]; and the same rows
    followed by one more line, of another user. *)
Definition three_rows : string :=
  movie_line "100" "1" ++ movie_line "100" "2" ++ movie_line "100" "3".

Definition three_rows_and_one : string :=
  three_rows ++ movie_line "235" "4".

Definition scenario_answers : list string := ["0.9"; "0.5"; "0.7"].

Definition abc_movie_df : list movie_row :=
  [MovieRow 1 "A"; MovieRow 2 "B"; MovieRow 3 "C"].

Definition ab_song_df : list (song_row Z) :=
  [SongRow 1 "A"; SongRow 2 "B"].

(** A file of two users whose last line belongs to user ["100"]. *)
Definition two_users : string :=
  movie_line "100" "1" ++ movie_line "235" "5" ++ movie_line "100" "2".

(** Twelve lines of user ["100"], items ["1"] to ["12"], and the answers
    to the first eleven. *)
Definition twelve_lines : list string :=
  (fun item : nat => movie_line "100" (pretty item)) <$> seq 1 12.

Definition eleven_answers : list string :=
  ["0.30"; "0.91"; "0.12"; "0.55"; "0.91"; "0.47"; "0.08"; "0.76"; "0.30";
   "0.64"; "0.91"].

(** A music file of two users whose last line belongs to user
    ["30544.0"]. *)
Definition songs_last_of_user : string :=
  music_line "30544.0" "1" ++ music_line "77.0" "1" ++ music_line "30544.0" "2".

(** A music file in which the rows of user ["30544.0"] are followed by a
    row of user ["77.0"] and the last line. *)
Definition songs_of_two_users : string :=
  music_line "30544.0" "1" ++ music_line "30544.0" "2" ++ music_line "77.0" "1"
  ++ music_line "77.0" "2".


(** The runs the examples look at. *)
Definition run_two_users : result locals * world (list string) :=
  score_movies scripted "endpoint" "movie-rec-model.tar.gz" (str (PyInt 100))
    (readlines two_users) (start scenario_answers).

Definition run_twelve_lines : result locals * world (list string) :=
  score_movies scripted "endpoint" "movie-rec-model.tar.gz" (str (PyInt 100))
    twelve_lines (start eleven_answers).

Definition run_songs_last_of_user : result locals * world (list string) :=
  score_songs scripted "endpoint" "music-rec-model.tar.gz" (str (PyStr "30544.0"))
    (readlines songs_last_of_user) (start ["0.4"; "0.6"]).


(** ** The remaining cells of the notebook *)



(** [s.endswith(c)] for one character. *)
Fixpoint endswith (c : ascii) (s : string) : bool :=
  match s with
  | EmptyString => false
  | String a EmptyString => Ascii.eqb a c
  | String _ s' => endswith c s'
  end.

(** [os.path.join(a, *p)] of [posixpath]: a component that starts with the
    separator replaces what came before; otherwise it is appended, after a
    separator unless the path so far is empty or ends with one. *)
Definition path_join (a : string) (p : list string) : string :=
  foldl (fun path b =>
           if String.prefix "/" b then b
           else if String.eqb path "" || endswith "/" path then path ++ b
           else path ++ "/" ++ b) a p.

(** [template.format(arg, ...)] for the replacement fields the notebook uses:
    each [{}] takes the next argument, doubled braces stand for one brace,
    arguments left over are ignored.  Python raises [IndexError] when the
    arguments run out and [ValueError] on a lone brace. *)
Fixpoint format (template : string) (args : list string) : result string :=
  match template with
  | EmptyString => Ok EmptyString
  | String "{" (String "}" rest) =>
      match args with
      | arg :: args' =>
          match format rest args' with
          | Ok out => Ok (arg ++ out)
          | Raise e => Raise e
          end
      | [] => Raise IndexError
      end
  | String "{" (String "{" rest) =>
      match format rest args with
      | Ok out => Ok (String "{" out)
      | Raise e => Raise e
      end
  | String "}" (String "}" rest) =>
      match format rest args with
      | Ok out => Ok (String "}" out)
      | Raise e => Raise e
      end
  | String "{" _ => Raise ValueError
  | String "}" _ => Raise ValueError
  | String c rest =>
      match format rest args with
      | Ok out => Ok (String c out)
      | Raise e => Raise e
      end
  end.

Definition DATA_PREFIX : string := "sagemaker/Recommendations-MultiModelEndpoint".
Definition MULTI_MODEL_ARTIFACTS : string := "multi_model_artifacts".
Definition LOCAL_MODELS_DIR : string := "../models".
Definition MOVIE_RECOMMENDATION_MODEL : string := "movie-rec-model.tar.gz".
Definition MUSIC_RECOMMENDATION_MODEL : string := "music-rec-model.tar.gz".

(** The [_container] dictionary of [create_multi_model_metadata]. *)
Record container : Type := Container {
  Image : string;
  ModelDataUrl : string;
  Mode : string
}.

(** The calls the provisioning cells make on the S3 and SageMaker clients,
    by their arguments. *)
Inductive aws_call : Type :=
| UploadFileobj (Bucket Key Fileobj : string)
| CreateModel (ModelName ExecutionRoleArn : string) (Containers : list container)
| DescribeEndpoint (EndpointName : string).

(** What the provisioning cells can change besides the output: the state
    of the cloud services, the calls made to them (oldest first) and the
    seconds spent in [time.sleep]. *)
Record account (AWS : Type) : Type := Account {
  cloud : AWS;
  calls : list aws_call;
  slept : Z
}.
Arguments Account {AWS} _ _ _.
Arguments cloud {AWS} _.
Arguments calls {AWS} _.
Arguments slept {AWS} _.

(** [time.sleep(secs)] *)
Definition sleep {AWS} (secs : Z) : M (account AWS) unit :=
  fun w =>
    (Ok tt,
     World (Account (cloud (hosted w)) (calls (hosted w)) (slept (hosted w) + secs))
       (requests w) (stdout w)).

Section Provisioning.

Context {AWS : Type}.

(** The cloud services: the text a call answers with (the endpoint status
    for [describe_endpoint]) or the exception it raises, and the next
    state. *)
Variable aws : aws_call -> AWS -> result string * AWS.

(** Values of the session: the default bucket, the image of the container,
    the name of the endpoint, and the text [print] shows for the file opened
    at a path. *)
Variable BUCKET : string.
Variable XGB_CONTAINER : string.
Variable endpoint_name : string.
Variable file_repr : string -> string.

(** A call on a client, recorded in the account. *)
Definition client_call (call : aws_call) : M (account AWS) string :=
  fun w =>
    let (answer, next) := aws call (cloud (hosted w)) in
    (answer,
     World (Account next (calls (hosted w) ++ [call]) (slept (hosted w)))
       (requests w) (stdout w)).

(** [copy_model_to_s3(model_name)], the file at
    [LOCAL_MODELS_DIR+'/'+model_name] opened with success and holding
    [file_obj]. *)
Definition copy_model_to_s3 (model_name file_obj : string) : M (account AWS) unit :=
  let key := path_join DATA_PREFIX [MULTI_MODEL_ARTIFACTS; model_name] in
  let* _ := print ["Uploading "; file_repr (LOCAL_MODELS_DIR ++ "/" ++ model_name);
                   " to bucket "; BUCKET; " as "; key] in
  let* _ := client_call (UploadFileobj BUCKET key file_obj) in
  ret tt.

Definition create_multi_model_metadata (multi_model_name role : string)
  : M (account AWS) string :=
  let* _model_url :=
    lift (format "s3://{}/{}/{}/" [BUCKET; DATA_PREFIX; MULTI_MODEL_ARTIFACTS]) in
  let _container := Container XGB_CONTAINER _model_url "MultiModel" in
  let* create_model_response :=
    client_call (CreateModel multi_model_name role [_container]) in
  ret _model_url.

(** The [while status=='Creating'] loop of the waiting cell, for at most
    [fuel] turns: [Some status] once the loop is left, [None] when the fuel
    is used up while the status is still ['Creating']. *)
Fixpoint wait_while_creating (fuel : nat) (status : string)
  : M (account AWS) (option string) :=
  if String.eqb status "Creating" then
    match fuel with
    | O => ret None
    | S fuel' =>
        let* _ := sleep 60 in
        let* status := client_call (DescribeEndpoint endpoint_name) in
        let* line := lift (format "    {}..." [status]) in
        let* _ := print [line] in
        wait_while_creating fuel' status
    end
  else ret (Some status).

(** The waiting cell: the final status once ['DONE'] is printed. *)
Definition wait_for_endpoint (fuel : nat) : M (account AWS) (option string) :=
  let* line := lift (format "Waiting for {} endpoint to be in service..."
                       [endpoint_name]) in
  let* _ := print [line] in
  let* status := client_call (DescribeEndpoint endpoint_name) in
  let* final := wait_while_creating fuel status in
  match final with
  | Some status => let* _ := print ["DONE"] in ret (Some status)
  | None => ret None
  end.

(** From the state [before], the next calls of [describe_endpoint] answer
    the [statuses] one after the other and leave the state [after]. *)
Fixpoint describes (statuses : list string) (before after : AWS) : Prop :=
  match statuses with
  | [] => before = after
  | status :: statuses' =>
      exists next,
        aws (DescribeEndpoint endpoint_name) before = (Ok status, next) /\
        describes statuses' next after
  end.

End Provisioning.

(** Cloud services that answer [describe_endpoint] from a script of
    statuses and every other call with an empty text. *)
Definition scripted_aws (call : aws_call) (statuses : list string)
  : result string * list string :=
  match call with
  | DescribeEndpoint _ =>
      match statuses with
      | status :: rest => (Ok status, rest)
      | [] => (Raise (EndpointError "no status left"), [])
      end
  | _ => (Ok EmptyString, statuses)
  end.

(** The text shown for a file opened in binary mode, for paths without
    quotes or escapes. *)
Definition buffered_reader_repr (path : string) : string :=
  "<_io.BufferedReader name='" ++ path ++ "'>".

(** A movie file with a line of two fields among the lines of user
    ["100"], and the music file with its second row cut short. *)
Definition movie_file_with_short_line : string :=
  movie_line "100" "1" ++ "5,0" ++ nl ++ movie_line "100" "2" ++ movie_line "100" "3".

(** A movie file of three users. *)
Definition three_users : string :=
  movie_line "7" "1" ++ movie_line "100" "1" ++ movie_line "235" "5"
  ++ movie_line "100" "2" ++ movie_line "7" "9".

(** The cell that asks for the movies of two users,
    [for user_id in user_ids: get_recommendations_for_user(
    MOVIE_RECOMMENDATION_MODEL, user_id, True)], the candidate file holding
    [test_data] at both calls. *)
Definition user_ids : list value := [PyInt 100; PyInt 235].

Definition movie_cell {EP} (endpoint : request -> EP -> result string * EP)
    (endpoint_name : string) (int_unicode : string -> result Z)
    (movie_df : list movie_row) (test_data : string)
  : M EP unit :=
  for_in user_ids
    (fun user_id _ =>
       get_recommendations_for_user endpoint endpoint_name int_unicode movie_df
         MOVIE_RECOMMENDATION_MODEL user_id true test_data)
    tt.

(** A row of a file holds no line end, and a file is written row by row,
    each row followed by a line end. *)
Fixpoint no_line_end (s : string) : bool :=
  match s with
  | EmptyString => true
  | String a s' =>
      negb (Ascii.eqb a "010") && negb (Ascii.eqb a "013") && no_line_end s'
  end.

Definition file_of_rows (rows : list string) : string :=
  foldr (fun row text => row ++ nl ++ text) EmptyString rows.

(** Cloud services on which the endpoint never leaves ['Creating']. *)
Definition always_creating (call : aws_call) (state : unit) : result string * unit :=
  (Ok "Creating", state).

(** An account in which nothing has been called or slept yet. *)
Definition fresh_account {AWS} (state : AWS) : world (account AWS) :=
  World (Account state [] 0) [] [].


Local Open Scope list_scope.

(** ** Statements and loops *)

Section MonadFacts.

Context {EP : Type}.

Lemma bind_ok {A B} (m : M EP A) (k : A -> M EP B) w a w' :
  m w = (Ok a, w') -> bind m k w = k a w'.
Proof. unfold bind. intros ->. reflexivity. Qed.

Lemma bind_raise {A B} (m : M EP A) (k : A -> M EP B) w e w' :
  m w = (Raise e, w') -> bind m k w = (Raise e, w').
Proof. unfold bind. intros ->. reflexivity. Qed.

Lemma bind_inv_ok {A B} (m : M EP A) (k : A -> M EP B) w b w' :
  bind m k w = (Ok b, w') ->
  exists a w1, m w = (Ok a, w1) /\ k a w1 = (Ok b, w').
Proof.
  unfold bind. destruct (m w) as [[a|e] w1]; intros H.
  - exists a, w1. split; [reflexivity | exact H].
  - discriminate H.
Qed.

Lemma for_in_ext {A S} (xs : list A) (b1 b2 : A -> S -> M EP S) :
  (forall x s w, x ∈ xs -> b1 x s w = b2 x s w) ->
  forall s w, for_in xs b1 s w = for_in xs b2 s w.
Proof.
  induction xs as [|x xs IH]; intros Hb s w; [reflexivity|].
  simpl. unfold bind. rewrite Hb by left.
  destruct (b2 x s w) as [[s'|e] w']; [|reflexivity].
  apply IH. intros y s0 w0 Hy. apply Hb. right. exact Hy.
Qed.

Lemma for_in_app {A S} (xs ys : list A) (b : A -> S -> M EP S) s w :
  for_in (xs ++ ys) b s w = bind (for_in xs b s) (for_in ys b) w.
Proof.
  revert s w. induction xs as [|x xs IH]; intros s w; [reflexivity|].
  simpl. unfold bind. destruct (b x s w) as [[s'|e] w']; [|reflexivity].
  rewrite IH. reflexivity.
Qed.

(** A loop over the indices of a list is a loop over its elements. *)
Lemma for_in_indices {A S} (l : list A) (f : A -> S -> M EP S)
    (g : Z -> S -> M EP S) :
  (forall k x s w, l !! k = Some x -> g (Z.of_nat k) s w = f x s w) ->
  forall n a, (a + n <= length l)%nat ->
  forall s w, for_in (Z.of_nat <$> seq a n) g s w = for_in (take n (drop a l)) f s w.
Proof.
  intros Hg n. induction n as [|n IH]; intros a Ha s w; [reflexivity|].
  destruct (lookup_lt_is_Some_2 l a) as [x Hx]; [lia|].
  rewrite (drop_S l x a Hx). simpl. unfold bind.
  rewrite (Hg a x s w Hx).
  destruct (f x s w) as [[s'|e] w']; [|reflexivity].
  apply IH. lia.
Qed.

End MonadFacts.

Lemma range_from_0 n : range 0 n = Z.of_nat <$> seq 0 (Z.to_nat n).
Proof. unfold range. rewrite Z.sub_0_r. reflexivity. Qed.

Lemma getitem_lookup {A} (l : list A) (k : nat) x :
  l !! k = Some x -> getitem l (Z.of_nat k) = Ok x.
Proof.
  intros H. unfold getitem.
  destruct (Z.leb_spec 0 (Z.of_nat k)); [|lia].
  destruct (Z.ltb_spec (Z.of_nat k) 0); [lia|].
  rewrite Nat2Z.id, H. reflexivity.
Qed.

Lemma examined_snoc (init : list string) last : examined (init ++ [last]) = init.
Proof.
  unfold examined. rewrite length_app. simpl.
  replace (length init + 1 - 1)%nat with (length init) by lia.
  apply take_app_length.
Qed.

Lemma examined_length contents : length (examined contents) = (length contents - 1)%nat.
Proof. unfold examined. rewrite length_take. lia. Qed.

(** ** Reading a row *)

Lemma split_nonempty sep s : split sep s <> [].
Proof.
  destruct s as [|a s]; simpl; [discriminate|].
  destruct (Ascii.eqb a sep); [discriminate|].
  destruct (split sep s); discriminate.
Qed.

(** Joining the fields of a line on the separator gives the line back. *)
Lemma join_split sep s : join (String sep EmptyString) (split sep s) = s.
Proof.
  induction s as [|a s IH]; [reflexivity|]. simpl.
  pose proof (split_nonempty sep s) as Hne.
  destruct (Ascii.eqb_spec a sep) as [->|_].
  - destruct (split sep s) as [|f fs]; [contradiction|].
    change (join (String sep EmptyString) (EmptyString :: f :: fs))
      with (String sep (join (String sep EmptyString) (f :: fs))).
    rewrite IH. reflexivity.
  - destruct (split sep s) as [|f fs]; [contradiction|].
    rewrite <- IH. destruct fs; reflexivity.
Qed.

Lemma pop_front_drop n (l : list string) :
  pop_front n l = if decide (n <= length l)%nat then Ok (drop n l) else Raise IndexError.
Proof.
  revert l. induction n as [|n IH]; intros l.
  - simpl. rewrite drop_0. reflexivity.
  - destruct l as [|x l]; cbn [pop_front pop0 drop length].
    + rewrite decide_False by lia. reflexivity.
    + rewrite IH. repeat case_decide; try reflexivity; lia.
Qed.

Lemma getitem_0 {A} (l : list A) :
  getitem l 0 = match l with x :: _ => Ok x | [] => Raise IndexError end.
Proof. destruct l; reflexivity. Qed.

Lemma getitem_1 {A} (l : list A) :
  getitem l 1 = match l with _ :: x :: _ => Ok x | _ => Raise IndexError end.
Proof. destruct l as [|? [|? ?]]; reflexivity. Qed.

Lemma parse_row_drop labels line :
  parse_row labels line =
  match drop labels (split "," line) with
  | user :: item :: rest => Ok (CandidateRow user item (user :: item :: rest))
  | _ => Raise IndexError
  end.
Proof.
  unfold parse_row. rewrite pop_front_drop.
  case_decide as Hle.
  - rewrite getitem_0, getitem_1.
    destruct (drop labels (split "," line)) as [|u [|it rest]]; reflexivity.
  - rewrite drop_ge by lia. reflexivity.
Qed.

Lemma parse_row_raises labels line e :
  parse_row labels line = Raise e -> e = IndexError.
Proof.
  rewrite parse_row_drop.
  destruct (drop labels (split "," line)) as [|u [|it rest]]; congruence.
Qed.

Section LoopFacts.

Context {EP : Type}.
Variable endpoint : request -> EP -> result string * EP.
Variable endpoint_name : string.

Lemma movie_step_line model_name uid contents k line loc w :
  contents !! k = Some line ->
  movie_step endpoint endpoint_name model_name uid contents (Z.of_nat k) loc w
  = score_line endpoint endpoint_name 2 model_name uid line loc w.
Proof.
  intros H. unfold movie_step, score_line, bind, lift.
  rewrite (getitem_lookup _ _ _ H). unfold parse_row. simpl pop_front.
  destruct (split "," line) as [|f0 [|f1 fs]]; simpl; try reflexivity.
  rewrite getitem_0, getitem_1.
  destruct fs as [|u [|it rest]]; reflexivity.
Qed.

Lemma music_step_line model_name uid contents k line loc w :
  contents !! k = Some line ->
  music_step endpoint endpoint_name model_name uid contents (Z.of_nat k) loc w
  = score_line endpoint endpoint_name 1 model_name uid line loc w.
Proof.
  intros H. unfold music_step, score_line, bind, lift.
  rewrite (getitem_lookup _ _ _ H). unfold parse_row. simpl pop_front.
  destruct (split "," line) as [|f0 fs]; simpl; try reflexivity.
  rewrite getitem_0, getitem_1.
  destruct fs as [|u [|it rest]]; reflexivity.
Qed.

Lemma score_movies_lines model_name uid contents w :
  score_movies endpoint endpoint_name model_name uid contents w
  = score_lines endpoint endpoint_name 2 model_name uid (examined contents)
      (Locals [] None) w.
Proof.
  unfold score_movies, score_lines, examined. rewrite range_from_0.
  replace (Z.to_nat (Z.of_nat (length contents) - 1))
    with (length contents - 1)%nat by lia.
  change (take (length contents - 1) contents)
    with (take (length contents - 1) (drop 0 contents)).
  apply for_in_indices; [|lia].
  intros k x s w0 Hk. apply movie_step_line. exact Hk.
Qed.

Lemma score_songs_lines model_name uid contents w :
  score_songs endpoint endpoint_name model_name uid contents w
  = score_lines endpoint endpoint_name 1 model_name uid (examined contents)
      (Locals [] None) w.
Proof.
  unfold score_songs, score_lines, examined. rewrite range_from_0.
  replace (Z.to_nat (Z.of_nat (length contents) - 1))
    with (length contents - 1)%nat by lia.
  change (take (length contents - 1) contents)
    with (take (length contents - 1) (drop 0 contents)).
  apply for_in_indices; [|lia].
  intros k x s w0 Hk. apply music_step_line. exact Hk.
Qed.

End LoopFacts.

(** ** One turn of the loop, and the whole loop *)

Section ScoringFacts.

Context {EP : Type}.
Variable endpoint : request -> EP -> result string * EP.
Variable endpoint_name : string.

Lemma score_line_bad labels m uid line loc w e :
  parse_row labels line = Raise e ->
  score_line endpoint endpoint_name labels m uid line loc w = (Raise e, w).
Proof. intros H. unfold score_line, bind, lift. rewrite H. reflexivity. Qed.

Lemma score_line_skip labels m uid line loc w row :
  parse_row labels line = Ok row ->
  row_user row <> uid ->
  score_line endpoint endpoint_name labels m uid line loc w
  = (Ok (Locals (predictions loc) (Some (row_user row))), w).
Proof.
  intros H Hne. unfold score_line, bind, lift. rewrite H.
  destruct (String.eqb_spec (row_user row) uid); [contradiction|reflexivity].
Qed.

Lemma score_line_match labels m uid line loc w row :
  parse_row labels line = Ok row ->
  row_user row = uid ->
  score_line endpoint endpoint_name labels m uid line loc w
  = match endpoint (request_of endpoint_name m row) (hosted w) with
    | (Ok prediction, ep) =>
        (Ok (Locals (predictions loc ++ [(row_item row, prediction)])
               (Some (row_user row))),
         World ep (requests w ++ [request_of endpoint_name m row]) (stdout w))
    | (Raise e, ep) =>
        (Raise e, World ep (requests w ++ [request_of endpoint_name m row]) (stdout w))
    end.
Proof.
  intros H He. unfold score_line, bind, lift. rewrite H.
  destruct (String.eqb_spec (row_user row) uid); [|contradiction].
  unfold invoke_endpoint, request_of, csv_request.
  destruct (endpoint _ (hosted w)) as [[p|e'] ep]; reflexivity.
Qed.

Lemma rows_of_cons_ok labels line lines row :
  parse_row labels line = Ok row ->
  rows_of labels (line :: lines) = row :: rows_of labels lines.
Proof. intros H. unfold rows_of. simpl. rewrite H. reflexivity. Qed.

Lemma matching_cons_match labels uid line lines row :
  parse_row labels line = Ok row -> row_user row = uid ->
  matching labels uid (line :: lines) = row :: matching labels uid lines.
Proof.
  intros H He. unfold matching. rewrite (rows_of_cons_ok _ _ _ _ H).
  rewrite filter_cons_True by exact He. reflexivity.
Qed.

Lemma matching_cons_skip labels uid line lines row :
  parse_row labels line = Ok row -> row_user row <> uid ->
  matching labels uid (line :: lines) = matching labels uid lines.
Proof.
  intros H He. unfold matching. rewrite (rows_of_cons_ok _ _ _ _ H).
  rewrite filter_cons_False by exact He. reflexivity.
Qed.

Lemma last_user_cons labels line lines row before :
  parse_row labels line = Ok row ->
  last_user labels (line :: lines) before
  = last_user labels lines (Some (row_user row)).
Proof.
  intros H. unfold last_user. rewrite (rows_of_cons_ok _ _ _ _ H).
  destruct (rows_of labels lines) as [|r rs] eqn:E; [reflexivity|].
  rewrite last_cons_cons.
  destruct (last (r :: rs)) eqn:E'; [reflexivity|].
  apply last_None in E'. discriminate E'.
Qed.

(** A loop that ends without an exception has read every line, called
    the endpoint once for each row of the user, in the order of the lines,
    and appended one pair for each answer. *)
Lemma score_lines_ok labels m uid lines : forall loc w loc' w',
  score_lines endpoint endpoint_name labels m uid lines loc w = (Ok loc', w') ->
  Forall (fun line => exists row, parse_row labels line = Ok row) lines /\
  exists answers,
    length answers = length (matching labels uid lines) /\
    predictions loc'
    = predictions loc ++ zip (row_item <$> matching labels uid lines) answers /\
    requests w' = requests w ++ (request_of endpoint_name m <$> matching labels uid lines) /\
    stdout w' = stdout w /\
    user loc' = last_user labels lines (user loc).
Proof.
  induction lines as [|line lines IH]; intros loc w loc' w' Hrun.
  - inversion Hrun; subst. split; [constructor|]. exists [].
    unfold matching, last_user. simpl. rewrite !app_nil_r. auto.
  - unfold score_lines in Hrun. simpl in Hrun.
    apply bind_inv_ok in Hrun as (loc1 & w1 & Hstep & Hrest).
    destruct (parse_row labels line) as [row|e] eqn:Hrow;
      [|rewrite (score_line_bad _ _ _ _ _ _ _ Hrow) in Hstep; discriminate].
    destruct (IH _ _ _ _ Hrest) as (Hall & answers & Hlen & Hpred & Hreq & Hout & Huser).
    split; [constructor; eauto|].
    rewrite (last_user_cons _ _ _ _ _ Hrow).
    destruct (decide (row_user row = uid)) as [He|Hne].
    + rewrite (score_line_match _ _ _ _ _ _ _ Hrow He) in Hstep.
      destruct (endpoint _ (hosted w)) as [[p|e'] ep]; [|discriminate].
      inversion Hstep; subst loc1 w1; clear Hstep. simpl in *.
      rewrite (matching_cons_match _ _ _ _ _ Hrow He).
      exists (p :: answers). simpl.
      rewrite Hlen, Hpred, Hreq, Hout, Huser, <- !app_assoc. auto.
    + rewrite (score_line_skip _ _ _ _ _ _ _ Hrow Hne) in Hstep.
      inversion Hstep; subst loc1 w1; clear Hstep. simpl in *.
      rewrite (matching_cons_skip _ _ _ _ _ Hrow Hne).
      exists answers. auto.
Qed.

(** With lines that can all be read and an endpoint that answers, the
    loop ends without an exception. *)
Lemma score_lines_total labels m uid lines :
  Forall (fun line => exists row, parse_row labels line = Ok row) lines ->
  (forall req ep, exists prediction ep', endpoint req ep = (Ok prediction, ep')) ->
  forall loc w, exists loc' w',
    score_lines endpoint endpoint_name labels m uid lines loc w = (Ok loc', w').
Proof.
  intros Hall Hep. induction Hall as [|line lines [row Hrow] _ IH]; intros loc w.
  - exists loc, w. reflexivity.
  - unfold score_lines. simpl. unfold bind.
    destruct (decide (row_user row = uid)) as [He|Hne].
    + rewrite (score_line_match _ _ _ _ _ _ _ Hrow He).
      destruct (Hep (request_of endpoint_name m row) (hosted w)) as (p & ep & ->).
      apply IH.
    + rewrite (score_line_skip _ _ _ _ _ _ _ Hrow Hne). apply IH.
Qed.

(** Whatever the outcome, a loop calls the endpoint at most once a line. *)
Lemma score_lines_calls labels m uid lines : forall loc w,
  (length (requests (score_lines endpoint endpoint_name labels m uid lines loc w).2)
   <= length (requests w) + length lines)%nat.
Proof.
  induction lines as [|line lines IH]; intros loc w; [simpl; lia|].
  unfold score_lines. simpl. unfold bind.
  destruct (parse_row labels line) as [row|e] eqn:Hrow;
    [|rewrite (score_line_bad _ _ _ _ _ _ _ Hrow); simpl; lia].
  destruct (decide (row_user row = uid)) as [He|Hne].
  - rewrite (score_line_match _ _ _ _ _ _ _ Hrow He).
    destruct (endpoint _ (hosted w)) as [[p|e'] ep].
    + etransitivity; [apply IH|]. simpl. rewrite length_app. simpl. lia.
    + simpl. rewrite length_app. simpl. lia.
  - rewrite (score_line_skip _ _ _ _ _ _ _ Hrow Hne).
    etransitivity; [apply IH|]. simpl. lia.
Qed.

End ScoringFacts.

(** ** The order of strings and the stable sort *)

Lemma string_leb_trans a b c :
  String.leb a b = true -> String.leb b c = true -> String.leb a c = true.
Proof.
  unfold String.leb. revert b c.
  induction a as [|x a IH]; intros [|y b] [|z c]; simpl; try done.
  unfold Ascii.compare.
  destruct (N.compare_spec (N_of_ascii x) (N_of_ascii y)),
    (N.compare_spec (N_of_ascii y) (N_of_ascii z)),
    (N.compare_spec (N_of_ascii x) (N_of_ascii z)); try done; try lia.
  apply IH.
Qed.

Lemma string_ltb_leb a b : String.ltb a b = true -> String.leb a b = true.
Proof. unfold String.ltb, String.leb. destruct (String.compare a b); done. Qed.

Lemma string_ltb_false a b : String.ltb a b = false -> String.leb b a = true.
Proof.
  unfold String.ltb, String.leb. rewrite (String.compare_antisym b a).
  destruct (String.compare a b); done.
Qed.

Lemma string_ltb_irrefl a : String.ltb a a = false.
Proof.
  unfold String.ltb. pose proof (String.compare_antisym a a) as H.
  destruct (String.compare a a); done.
Qed.

Section SortFacts.

Context {A : Type} (key : A -> string).

Lemma insert_desc_perm x l : insert_desc key x l ≡ₚ x :: l.
Proof.
  induction l as [|y l IH]; simpl; [reflexivity|].
  destruct (String.ltb (key x) (key y)); [|reflexivity].
  rewrite IH. apply Permutation_swap.
Qed.

Lemma sorted_reverse_perm l : sorted_reverse key l ≡ₚ l.
Proof.
  induction l as [|x l IH]; simpl; [reflexivity|].
  rewrite insert_desc_perm, IH. reflexivity.
Qed.

Lemma insert_desc_sorted x l :
  StronglySorted (key_ge key) l -> StronglySorted (key_ge key) (insert_desc key x l).
Proof.
  induction 1 as [|y l Hl IH Hy]; simpl.
  - constructor; constructor.
  - destruct (String.ltb (key x) (key y)) eqn:E.
    + constructor; [exact IH|].
      rewrite insert_desc_perm. constructor; [|exact Hy].
      apply string_ltb_leb. exact E.
    + apply string_ltb_false in E.
      constructor; [constructor; assumption|].
      constructor; [exact E|].
      eapply Forall_impl; [exact Hy|].
      intros z Hz. unfold key_ge in *. eapply string_leb_trans; eassumption.
Qed.

Lemma sorted_reverse_sorted l : StronglySorted (key_ge key) (sorted_reverse key l).
Proof.
  induction l as [|x l IH]; simpl; [constructor|].
  apply insert_desc_sorted. exact IH.
Qed.

Lemma insert_desc_stable k x l :
  filter (fun a => key a = k) (insert_desc key x l)
  = filter (fun a => key a = k) (x :: l).
Proof.
  induction l as [|y l IH]; simpl; [reflexivity|].
  destruct (String.ltb (key x) (key y)) eqn:E; [|reflexivity].
  assert (key x <> key y) as Hne.
  { intros Heq. rewrite Heq, string_ltb_irrefl in E. discriminate E. }
  rewrite (filter_cons _ y), IH, !filter_cons.
  repeat case_decide; try reflexivity; congruence.
Qed.

(** Elements with the same key keep the order they came in. *)
Lemma sorted_reverse_stable k l :
  filter (fun a => key a = k) (sorted_reverse key l)
  = filter (fun a => key a = k) l.
Proof.
  induction l as [|x l IH]; simpl; [reflexivity|].
  rewrite insert_desc_stable, !filter_cons, IH. reflexivity.
Qed.

(** Two lists sorted on decreasing keys that agree key by key are equal:
    the result of a stable sort does not depend on how it is computed. *)
Lemma stable_sorted_unique l1 : forall l2,
  StronglySorted (key_ge key) l1 -> StronglySorted (key_ge key) l2 ->
  (forall k, filter (fun a => key a = k) l1 = filter (fun a => key a = k) l2) ->
  l1 = l2.
Proof.
  induction l1 as [|x l1 IH]; intros l2 H1 H2 Hk.
  - destruct l2 as [|y l2]; [reflexivity|].
    specialize (Hk (key y)). rewrite filter_cons_True in Hk by reflexivity.
    discriminate Hk.
  - destruct l2 as [|y l2].
    { specialize (Hk (key x)). rewrite filter_cons_True in Hk by reflexivity.
      discriminate Hk. }
    apply StronglySorted_inv in H1 as [H1 Hx].
    apply StronglySorted_inv in H2 as [H2 Hy].
    assert (key x = key y) as Hxy.
    { apply String.leb_antisym.
      - assert (x ∈ filter (fun a => key a = key x) (y :: l2)) as Hin.
        { rewrite <- Hk. rewrite filter_cons_True by reflexivity. left. }
        apply list_elem_of_filter in Hin as [_ Hin].
        apply elem_of_cons in Hin as [->|Hin]; [unfold String.leb;
          pose proof (String.compare_antisym (key y) (key y));
          destruct (String.compare (key y) (key y)); done|].
        rewrite Forall_forall in Hy. apply Hy. exact Hin.
      - assert (y ∈ filter (fun a => key a = key y) (x :: l1)) as Hin.
        { rewrite Hk. rewrite filter_cons_True by reflexivity. left. }
        apply list_elem_of_filter in Hin as [_ Hin].
        apply elem_of_cons in Hin as [->|Hin]; [unfold String.leb;
          pose proof (String.compare_antisym (key x) (key x));
          destruct (String.compare (key x) (key x)); done|].
        rewrite Forall_forall in Hx. apply Hx. exact Hin. }
    pose proof (Hk (key x)) as Hhead.
    rewrite filter_cons_True in Hhead by reflexivity.
    rewrite filter_cons_True in Hhead by (symmetry; exact Hxy).
    injection Hhead as -> Htail.
    f_equal. apply IH; [assumption..|].
    intros k. specialize (Hk k). rewrite !filter_cons in Hk.
    case_decide; [injection Hk as Hk|]; exact Hk.
Qed.

End SortFacts.

(** ** The display stage *)

Section DisplayFacts.

Context {EP : Type}.

Lemma printed_nil (w : world EP) : printed w [] = w.
Proof. destruct w. unfold printed. simpl. rewrite app_nil_r. reflexivity. Qed.

Lemma printed_printed (w : world EP) l1 l2 :
  printed (printed w l1) l2 = printed w (l1 ++ l2).
Proof. unfold printed. simpl. rewrite app_assoc. reflexivity. Qed.

Lemma print_title (w : world EP) title :
  print [tab; title] w = (Ok tt, printed w [title_line title]).
Proof. reflexivity. Qed.

Lemma show_titles_ok resolve recs titles : forall w : world EP,
  Forall2 (fun rec title => resolve rec = Ok title) recs titles ->
  show_titles resolve recs w = (Ok tt, printed w (title_line <$> titles)).
Proof.
  intros w H. revert w.
  induction H as [|rec title recs titles Hrec _ IH]; intros w.
  - simpl. rewrite printed_nil. reflexivity.
  - unfold show_titles. simpl. unfold bind at 1. unfold bind at 1.
    unfold lift at 1. rewrite Hrec, print_title.
    fold (show_titles (EP:=EP) resolve recs). rewrite IH, printed_printed.
    reflexivity.
Qed.

Lemma show_titles_raise resolve pre bad post titles e : forall w : world EP,
  Forall2 (fun rec title => resolve rec = Ok title) pre titles ->
  resolve bad = Raise e ->
  show_titles resolve (pre ++ bad :: post) w
  = (Raise e, printed w (title_line <$> titles)).
Proof.
  intros w H Hbad. unfold show_titles. rewrite for_in_app.
  fold (show_titles (EP:=EP) resolve pre).
  unfold bind at 1. rewrite (show_titles_ok _ _ _ _ H).
  simpl. unfold bind at 1. unfold bind at 1. unfold lift at 1.
  rewrite Hbad. reflexivity.
Qed.

Variable int_unicode : string -> result Z.
Variable movie_df : list movie_row.

Lemma show_movies_titles uid loc (w : world EP) :
  show_movies int_unicode movie_df uid loc w
  = show_titles (movie_title int_unicode movie_df) (recommendations (predictions loc))
      (printed w [movie_header uid]).
Proof.
  unfold show_movies, show_titles. unfold bind at 1.
  change (print ["Recommended movies for user with id : "; uid] w)
    with (Ok tt, printed w [movie_header uid]).
  apply for_in_ext. intros rec [] w0 _.
  unfold bind, lift, movie_title.
  destruct (int int_unicode rec.1) as [movie_id|e]; [|reflexivity].
  destruct (values0 _) as [title|e]; reflexivity.
Qed.

Context {float : Type}.
Variable float_of : string -> result float.
Variable float_eqb : float -> float -> bool.
Variable song_df : list (song_row float).

Lemma show_songs_titles loc u (w : world EP) :
  user loc = Some u ->
  show_songs float_of float_eqb song_df loc w
  = show_titles (song_title float_of float_eqb song_df)
      (recommendations (predictions loc)) (printed w [song_header u]).
Proof.
  intros Hu. unfold show_songs, show_titles. rewrite Hu.
  unfold bind at 1. unfold lift at 1. unfold bind at 1.
  change (print ["Recommended songs for user with id : "; u] w)
    with (Ok tt, printed w [song_header u]).
  apply for_in_ext. intros rec [] w0 _.
  unfold bind, lift, song_title.
  destruct (float_of rec.1) as [song_id|e]; [|reflexivity].
  destruct (values0 _) as [title|e]; reflexivity.
Qed.

Lemma show_songs_unbound loc (w : world EP) :
  user loc = None ->
  show_songs float_of float_eqb song_df loc w = (Raise UnboundLocalError, w).
Proof. intros Hu. unfold show_songs, bind, lift. rewrite Hu. reflexivity. Qed.

End DisplayFacts.

Lemma parse_row_fields labels line row :
  parse_row labels line = Ok row <->
  split "," line !! labels = Some (row_user row) /\
  split "," line !! S labels = Some (row_item row) /\
  row_data row = drop labels (split "," line).
Proof.
  rewrite parse_row_drop.
  pose proof (lookup_drop (split "," line) labels 0) as H0.
  pose proof (lookup_drop (split "," line) labels 1) as H1.
  rewrite Nat.add_0_r in H0. rewrite Nat.add_1_r in H1.
  rewrite <- H0, <- H1. destruct row as [u it data]. simpl.
  destruct (drop labels (split "," line)) as [|u' [|it' rest]]; simpl.
  - split; [discriminate|]. intros (H & _). discriminate H.
  - split; [discriminate|]. intros (_ & H & _). discriminate H.
  - split.
    + intros [= -> -> <-]. auto.
    + intros ([= ->] & [= ->] & ->). reflexivity.
Qed.

(** [split] cuts at every separator and nowhere else: its fields hold no
    separator, and it undoes [join] on such fields. *)
Lemma split_fields_free sep s :
  Forall (fun field => free_of sep field = true) (split sep s).
Proof.
  induction s as [|a s IH]; simpl; [repeat constructor|].
  destruct (Ascii.eqb a sep) eqn:E; [constructor; [reflexivity|exact IH]|].
  destruct (split sep s) as [|f fs]; [repeat constructor; simpl; rewrite E; reflexivity|].
  apply Forall_cons in IH as [Hf Hfs].
  constructor; [simpl; rewrite E, Hf; reflexivity|exact Hfs].
Qed.

Lemma split_free sep field :
  free_of sep field = true -> split sep field = [field].
Proof.
  induction field as [|a field IH]; [reflexivity|]. simpl.
  intros [Ha Hf]%andb_prop. apply negb_true_iff in Ha.
  rewrite Ha, (IH Hf). reflexivity.
Qed.

Lemma split_free_app sep field rest :
  free_of sep field = true ->
  split sep (field +:+ String sep rest) = field :: split sep rest.
Proof.
  induction field as [|a field IH].
  - intros _. change (split sep (String sep rest) = "" :: split sep rest).
    simpl. rewrite Ascii.eqb_refl. reflexivity.
  - simpl. intros [Ha Hf]%andb_prop. apply negb_true_iff in Ha.
    change (split sep (String a (field +:+ String sep rest))
            = String a field :: split sep rest).
    simpl. rewrite Ha, (IH Hf). reflexivity.
Qed.

Lemma split_join sep fields :
  fields <> [] ->
  Forall (fun field => free_of sep field = true) fields ->
  split sep (join (String sep EmptyString) fields) = fields.
Proof.
  intros Hne Hfree. induction Hfree as [|f fields Hf Hfree IH]; [contradiction|].
  destruct fields as [|g fields].
  - simpl. apply split_free. exact Hf.
  - change (join (String sep "") (f :: g :: fields))
      with (f +:+ String sep (join (String sep "") (g :: fields))).
    rewrite (split_free_app _ _ _ Hf), IH by discriminate. reflexivity.
Qed.

(** * The claims *)

Section Scoring.

Context {EP : Type}.
Variable endpoint : request -> EP -> result string * EP.
Variable endpoint_name : string.

(** C2.  The last line of the candidate file is never scored.  Whatever
    the last line is, the movie loop and the music loop on a file of at
    least one line, [init ++ [last]], run as the loop on the lines [init]
    before it: the outcome, the pairs accumulated, the calls made to the
    endpoint and its state do not depend on the last line, and at most one
    call is made for each line of [init]. *)
Theorem last_line_never_scored model_name uid init last (w : world EP) :
  score_movies endpoint endpoint_name model_name uid (init ++ [last]) w
  = score_lines endpoint endpoint_name 2 model_name uid init (Locals [] None) w /\
  score_songs endpoint endpoint_name model_name uid (init ++ [last]) w
  = score_lines endpoint endpoint_name 1 model_name uid init (Locals [] None) w /\
  (length (requests
     (score_movies endpoint endpoint_name model_name uid (init ++ [last]) w).2)
   <= length (requests w) + length init)%nat /\
  (length (requests
     (score_songs endpoint endpoint_name model_name uid (init ++ [last]) w).2)
   <= length (requests w) + length init)%nat.
Proof.
  rewrite score_movies_lines, score_songs_lines, examined_snoc.
  repeat split; apply score_lines_calls.
Qed.

(** C6.  Every row the loops read is split on the comma, its leading
    label fields are removed, two in the movie loop and one in the music
    loop, and the next two fields are taken as the user and the item.  The
    split cuts the line at every comma and nowhere else: its fields hold no
    comma and joined by commas give the line back, so a line written as
    fields joined by commas is split into these fields.  On a movie line
    written as two labels, a user, an item and features, the turn of the
    movie loop reads that user and that item: it compares the user with the
    requested id, and for a row of that user it calls the endpoint and
    appends the pair of that item and the answer; on a music line written as
    one label, a user, an item and features the music loop does the same.  In
    general a turn of the movie loop on line [k] is [score_line] with two
    labels, a turn of the music loop is [score_line] with one, and a line is
    read into a row exactly when the fields at positions [labels] and
    [labels + 1] of the split line exist; they are its user and its item,
    and its data are the fields from position [labels] on.  A line that
    has too few fields raises [IndexError]. *)
Theorem row_fields_after_labels model_name uid contents k line loc (w : world EP) :
  contents !! k = Some line ->
  let turn user item features :=
    if String.eqb user uid then
      let req := Request endpoint_name "text/csv" model_name
                   (join "," (user :: item :: features)) in
      match endpoint req (hosted w) with
      | (Ok prediction, ep) =>
          (Ok (Locals (predictions loc ++ [(item, prediction)]) (Some user)),
           World ep (requests w ++ [req]) (stdout w))
      | (Raise e, ep) => (Raise e, World ep (requests w ++ [req]) (stdout w))
      end
    else (Ok (Locals (predictions loc) (Some user)), w) in
  movie_step endpoint endpoint_name model_name uid contents (Z.of_nat k) loc w
  = score_line endpoint endpoint_name 2 model_name uid line loc w /\
  music_step endpoint endpoint_name model_name uid contents (Z.of_nat k) loc w
  = score_line endpoint endpoint_name 1 model_name uid line loc w /\
  (forall labels row,
     parse_row labels line = Ok row <->
     split "," line !! labels = Some (row_user row) /\
     split "," line !! S labels = Some (row_item row) /\
     row_data row = drop labels (split "," line)) /\
  (forall labels,
     (exists row, parse_row labels line = Ok row) \/
     (parse_row labels line = Raise IndexError /\
      forall m u, score_line endpoint endpoint_name labels m u line loc w
                  = (Raise IndexError, w))) /\
  join "," (split "," line) = line /\
  Forall (fun field => free_of "," field = true) (split "," line) /\
  (forall fields,
     fields <> [] ->
     Forall (fun field => free_of "," field = true) fields ->
     line = join "," fields ->
     split "," line = fields) /\
  (forall label1 label2 user item features,
     Forall (fun field => free_of "," field = true)
       (label1 :: label2 :: user :: item :: features) ->
     line = join "," (label1 :: label2 :: user :: item :: features) ->
     parse_row 2 line = Ok (CandidateRow user item (user :: item :: features)) /\
     movie_step endpoint endpoint_name model_name uid contents (Z.of_nat k) loc w
     = turn user item features) /\
  (forall label user item features,
     Forall (fun field => free_of "," field = true)
       (label :: user :: item :: features) ->
     line = join "," (label :: user :: item :: features) ->
     parse_row 1 line = Ok (CandidateRow user item (user :: item :: features)) /\
     music_step endpoint endpoint_name model_name uid contents (Z.of_nat k) loc w
     = turn user item features).
Proof.
  intros Hk turn.
  assert (forall labels user item features,
            parse_row labels line
            = Ok (CandidateRow user item (user :: item :: features)) ->
            score_line endpoint endpoint_name labels model_name uid line loc w
            = turn user item features) as Hturn.
  { intros labels user item features Hrow. unfold turn.
    destruct (String.eqb_spec user uid) as [He|Hne].
    - rewrite (score_line_match _ _ _ _ _ _ _ _ _ Hrow He). reflexivity.
    - rewrite (score_line_skip _ _ _ _ _ _ _ _ _ Hrow Hne). reflexivity. }
  assert (forall fields,
            fields <> [] ->
            Forall (fun field => free_of "," field = true) fields ->
            line = join "," fields ->
            split "," line = fields) as Hsplit.
  { intros fields Hne Hfree ->. apply (split_join ","%char); assumption. }
  split; [apply movie_step_line; exact Hk|].
  split; [apply music_step_line; exact Hk|].
  split; [intros labels row; apply parse_row_fields|].
  split.
  { intros labels. destruct (parse_row labels line) as [row|e] eqn:E.
    - left. exists row. reflexivity.
    - right. pose proof (parse_row_raises _ _ _ E) as ->.
      split; [reflexivity|]. intros m u. apply score_line_bad. exact E. }
  split; [apply (join_split ","%char)|].
  split; [apply split_fields_free|].
  split; [exact Hsplit|].
  split.
  - intros label1 label2 user item features Hfree Hline.
    assert (parse_row 2 line
            = Ok (CandidateRow user item (user :: item :: features))) as Hrow.
    { rewrite parse_row_drop, (Hsplit _ (@not_eq_sym _ _ _ (@nil_cons _ _ _)) Hfree Hline).
      reflexivity. }
    split; [exact Hrow|].
    rewrite (movie_step_line _ _ _ _ _ _ _ _ _ Hk). apply Hturn. exact Hrow.
  - intros label user item features Hfree Hline.
    assert (parse_row 1 line
            = Ok (CandidateRow user item (user :: item :: features))) as Hrow.
    { rewrite parse_row_drop, (Hsplit _ (@not_eq_sym _ _ _ (@nil_cons _ _ _)) Hfree Hline).
      reflexivity. }
    split; [exact Hrow|].
    rewrite (music_step_line _ _ _ _ _ _ _ _ _ Hk). apply Hturn. exact Hrow.
Qed.

(** C7.  For a row of the requested user, read from line [k] of the
    file, the body of the scoring request is the comma-join of all the
    fields left once the label fields are removed, the user and the item
    first among them; the call names the model as its target, and when
    the endpoint answers, the pair of the item and the raw answer is
    appended to the accumulator.  This holds for the movie loop (two
    labels) and the music loop (one label). *)
Theorem payload_of_matching_row model_name uid contents k line loc (w : world EP)
    labels row :
  contents !! k = Some line ->
  parse_row labels line = Ok row ->
  row_user row = uid ->
  let payload := join "," (drop labels (split "," line)) in
  let req := Request endpoint_name "text/csv" model_name payload in
  let outcome :=
    match endpoint req (hosted w) with
    | (Ok prediction, ep) =>
        (Ok (Locals (predictions loc ++ [(row_item row, prediction)])
               (Some (row_user row))),
         World ep (requests w ++ [req]) (stdout w))
    | (Raise e, ep) => (Raise e, World ep (requests w ++ [req]) (stdout w))
    end in
  (exists rest,
     drop labels (split "," line) = row_user row :: row_item row :: rest) /\
  score_line endpoint endpoint_name labels model_name uid line loc w = outcome /\
  (labels = 2%nat ->
   movie_step endpoint endpoint_name model_name uid contents (Z.of_nat k) loc w
   = outcome) /\
  (labels = 1%nat ->
   music_step endpoint endpoint_name model_name uid contents (Z.of_nat k) loc w
   = outcome).
Proof.
  intros Hk Hrow Hu payload req outcome.
  assert (score_line endpoint endpoint_name labels model_name uid line loc w
          = outcome) as Hstep.
  { rewrite (score_line_match _ _ _ _ _ _ _ _ _ Hrow Hu).
    unfold outcome, req, payload, request_of.
    apply parse_row_fields in Hrow as (_ & _ & ->). reflexivity. }
  split; [|split; [exact Hstep|split]].
  - rewrite parse_row_drop in Hrow.
    destruct (drop labels (split "," line)) as [|u [|it rest]]; try discriminate.
    injection Hrow as <-. simpl. eauto.
  - intros ->. rewrite (movie_step_line _ _ _ _ _ _ _ _ _ Hk). exact Hstep.
  - intros ->. rewrite (music_step_line _ _ _ _ _ _ _ _ _ Hk). exact Hstep.
Qed.

End Scoring.



Lemma show_titles_prints {EP} resolve recs : forall w : world EP,
  exists r out, show_titles resolve recs w = (r, printed w out).
Proof.
  induction recs as [|rec recs IH]; intros w.
  - exists (Ok tt), []. simpl. rewrite printed_nil. reflexivity.
  - unfold show_titles. simpl. unfold bind at 1. unfold bind at 1. unfold lift at 1.
    destruct (resolve rec) as [title|e].
    + rewrite print_title. fold (show_titles (EP:=EP) resolve recs).
      destruct (IH (printed w [title_line title])) as (r & out & ->).
      exists r, (title_line title :: out). rewrite printed_printed. reflexivity.
    + exists (Raise e), []. rewrite printed_nil. reflexivity.
Qed.

Lemma filter_take_prefix {A} (P : A -> Prop) `{!forall x, Decision (P x)} n (l : list A) :
  filter P (take n l) `prefix_of` filter P l.
Proof.
  rewrite <- (take_drop n l) at 2. rewrite filter_app. apply prefix_app_r. reflexivity.
Qed.

Lemma recommendations_length predictions :
  length (recommendations predictions) = (9 `min` length predictions)%nat.
Proof.
  unfold recommendations, slice0, sorted_predcitions.
  rewrite length_take, (Permutation_length (sorted_reverse_perm snd predictions)).
  reflexivity.
Qed.

Section Ranking.

Context {EP : Type}.
Variable endpoint : request -> EP -> result string * EP.
Variable endpoint_name : string.

(** C4, amended.  When scoring ends without an exception, the number of
    recommendations selected for display is the smaller of nine and the
    number of rows of the requested user among the lines the loop examines,
    which are all the lines but the last: the first nine sorted pairs are
    taken, or all of them when there are fewer.  This holds for the movie
    routine and the music routine. *)
Theorem at_most_nine_selected model_name uid contents (w : world EP) loc' w' labels :
  labels = 2%nat /\
    score_movies endpoint endpoint_name model_name uid contents w = (Ok loc', w')
  \/ labels = 1%nat /\
    score_songs endpoint endpoint_name model_name uid contents w = (Ok loc', w') ->
  recommendations (predictions loc') = take 9 (sorted_predcitions (predictions loc')) /\
  length (predictions loc') = length (matching labels uid (examined contents)) /\
  length (recommendations (predictions loc'))
  = (9 `min` length (matching labels uid (examined contents)))%nat.
Proof.
  intros H.
  assert (score_lines endpoint endpoint_name labels model_name uid
            (examined contents) (Locals [] None) w = (Ok loc', w')) as Hrun.
  { destruct H as [[-> H]|[-> H]];
      [rewrite <- score_movies_lines|rewrite <- score_songs_lines]; exact H. }
  apply score_lines_ok in Hrun as (_ & answers & Hlen & Hpred & _).
  simpl in Hpred.
  assert (length (predictions loc')
          = length (matching labels uid (examined contents))) as Hn.
  { rewrite Hpred, length_zip, length_fmap, Hlen. lia. }
  split; [reflexivity|]. split; [exact Hn|].
  rewrite recommendations_length, Hn. reflexivity.
Qed.

(** C5, amended.  A row of the candidate file other than its last line is
    scored if and only if its user field is equal, as a string, to the text
    of the requested user id.  When scoring ends without an exception every
    examined line has been read into a row, and the rows for which a call
    was made and a pair accumulated are, in the order of the file, exactly
    the rows of the examined lines whose user field is that text. *)
Theorem scored_iff_same_user_text model_name user_id contents (w : world EP)
    loc' w' labels :
  labels = 2%nat /\
    score_movies endpoint endpoint_name model_name (str user_id) contents w
    = (Ok loc', w')
  \/ labels = 1%nat /\
    score_songs endpoint endpoint_name model_name (str user_id) contents w
    = (Ok loc', w') ->
  let scored := matching labels (str user_id) (examined contents) in
  Forall (fun line => exists row, parse_row labels line = Ok row) (examined contents) /\
  (forall row,
     row ∈ scored <->
     row ∈ rows_of labels (examined contents) /\ row_user row = str user_id) /\
  requests w' = requests w ++ (request_of endpoint_name model_name <$> scored) /\
  exists answers,
    length answers = length scored /\
    predictions loc' = zip (row_item <$> scored) answers.
Proof.
  intros H scored.
  assert (score_lines endpoint endpoint_name labels model_name (str user_id)
            (examined contents) (Locals [] None) w = (Ok loc', w')) as Hrun.
  { destruct H as [[-> H]|[-> H]];
      [rewrite <- score_movies_lines|rewrite <- score_songs_lines]; exact H. }
  apply score_lines_ok in Hrun as (Hall & answers & Hlen & Hpred & Hreq & _).
  split; [exact Hall|]. split; [|split; [exact Hreq|]].
  - intros row. unfold scored, matching. rewrite list_elem_of_filter. tauto.
  - exists answers. split; [exact Hlen|exact Hpred].
Qed.

(** C10.  The sort of the accumulated pairs is stable.  When scoring ends
    without an exception the accumulator holds the pairs of the scored rows
    in the order of the candidate file; for every score text, the sorted
    pairs with that score are the accumulated pairs with that score in the
    same order, and the displayed ones are the first of them.  The sorted
    list is the only list sorted on decreasing score text that keeps this
    order, so the ranking is determined by the answers of the endpoint. *)
Theorem equal_scores_keep_file_order model_name uid contents (w : world EP)
    loc' w' labels score :
  labels = 2%nat /\
    score_movies endpoint endpoint_name model_name uid contents w = (Ok loc', w')
  \/ labels = 1%nat /\
    score_songs endpoint endpoint_name model_name uid contents w = (Ok loc', w') ->
  exists answers,
    length answers = length (matching labels uid (examined contents)) /\
    let scored := zip (row_item <$> matching labels uid (examined contents)) answers in
    predictions loc' = scored /\
    filter (fun p => p.2 = score) (sorted_predcitions (predictions loc'))
    = filter (fun p => p.2 = score) scored /\
    filter (fun p => p.2 = score) (recommendations (predictions loc'))
      `prefix_of` filter (fun p => p.2 = score) scored /\
    forall ranking,
      StronglySorted (key_ge snd) ranking ->
      (forall k, filter (fun p => p.2 = k) ranking = filter (fun p => p.2 = k) scored) ->
      ranking = sorted_predcitions (predictions loc').
Proof.
  intros H.
  assert (score_lines endpoint endpoint_name labels model_name uid
            (examined contents) (Locals [] None) w = (Ok loc', w')) as Hrun.
  { destruct H as [[-> H]|[-> H]];
      [rewrite <- score_movies_lines|rewrite <- score_songs_lines]; exact H. }
  apply score_lines_ok in Hrun as (_ & answers & Hlen & Hpred & _).
  simpl in Hpred. exists answers. split; [exact Hlen|]. intros scored.
  fold scored in Hpred. rewrite Hpred.
  split; [reflexivity|]. split; [apply sorted_reverse_stable|]. split.
  - unfold recommendations, slice0.
    rewrite <- (sorted_reverse_stable snd score scored).
    apply filter_take_prefix.
  - intros ranking Hsorted Hsame.
    apply (stable_sorted_unique snd); [exact Hsorted|apply sorted_reverse_sorted|].
    intros k. rewrite Hsame. symmetry. apply sorted_reverse_stable.
Qed.

End Ranking.

Lemma values0_head (titles : list string) :
  values0 titles = match titles with title :: _ => Ok title | [] => Raise IndexError end.
Proof. apply getitem_0. Qed.

Section Display.

Context {EP : Type}.
Variable endpoint : request -> EP -> result string * EP.
Variable endpoint_name : string.
Variable int_unicode : string -> result Z.
Variable movie_df : list movie_row.
Context {float : Type}.
Variable float_of : string -> result float.
Variable float_eqb : float -> float -> bool.
Variable song_df : list (song_row float).


(** C8.  The title of a selected item is found by converting its item id
    to the key type of the metadata table, an integer for movies and a
    floating-point number for songs, and taking the title of the first
    metadata row with that key.  When no row has the key, the display
    stage stops with [IndexError] at that item: the titles of the items
    before it have been printed, the item is not skipped and nothing is
    printed for the items after it.  When every selected item has a row,
    the titles are printed in the order of the recommendations.  The
    integer conversion is the one of the built-in: it skips the white space
    of the C locale around the literal, reads a sign and decimal digits with
    single underscores between them, refuses [1.0], the empty literal and a
    literal after the control character 28, which this conversion does not
    skip, and leaves a literal with characters outside ASCII, such as the
    Arabic-Indic digit three, to the Unicode tables of the built-in. *)
Theorem missing_title_is_fatal :
  (forall rec,
     movie_title int_unicode movie_df rec =
     match int int_unicode rec.1 with
     | Ok movie_id =>
         match filter (fun row => movie_id_col row = movie_id) movie_df with
         | row :: _ => Ok (movie_title_col row)
         | [] => Raise IndexError
         end
     | Raise e => Raise e
     end) /\
  (forall rec,
     song_title float_of float_eqb song_df rec =
     match float_of rec.1 with
     | Ok song_id =>
         match List.filter (fun row => float_eqb (short_song_id_col row) song_id)
                 song_df with
         | row :: _ => Ok (title_col row)
         | [] => Raise IndexError
         end
     | Raise e => Raise e
     end) /\
  (forall uid loc (w : world EP) pre bad post titles movie_id,
     recommendations (predictions loc) = pre ++ bad :: post ->
     Forall2 (fun rec title => movie_title int_unicode movie_df rec = Ok title) pre titles ->
     int int_unicode bad.1 = Ok movie_id ->
     (forall row, row ∈ movie_df -> movie_id_col row <> movie_id) ->
     show_movies int_unicode movie_df uid loc w
     = (Raise IndexError, printed w (movie_header uid :: (title_line <$> titles)))) /\
  (forall u loc (w : world EP) pre bad post titles song_id,
     user loc = Some u ->
     recommendations (predictions loc) = pre ++ bad :: post ->
     Forall2 (fun rec title => song_title float_of float_eqb song_df rec = Ok title)
       pre titles ->
     float_of bad.1 = Ok song_id ->
     (forall row, row ∈ song_df -> float_eqb (short_song_id_col row) song_id = false) ->
     show_songs float_of float_eqb song_df loc w
     = (Raise IndexError, printed w (song_header u :: (title_line <$> titles)))) /\
  (forall uid loc (w : world EP) titles,
     Forall2 (fun rec title => movie_title int_unicode movie_df rec = Ok title)
       (recommendations (predictions loc)) titles ->
     show_movies int_unicode movie_df uid loc w
     = (Ok tt, printed w (movie_header uid :: (title_line <$> titles)))) /\
  (forall u loc (w : world EP) titles,
     user loc = Some u ->
     Forall2 (fun rec title => song_title float_of float_eqb song_df rec = Ok title)
       (recommendations (predictions loc)) titles ->
     show_songs float_of float_eqb song_df loc w
     = (Ok tt, printed w (song_header u :: (title_line <$> titles)))) /\
  (int int_unicode "7" = Ok 7 /\
   int int_unicode (" 42" +:+ nl) = Ok 42 /\
   int int_unicode "-1_0" = Ok (-10) /\
   int int_unicode "1.0" = Raise ValueError /\
   int int_unicode "" = Raise ValueError /\
   int int_unicode (String (ascii_of_nat 28) "1") = Raise ValueError /\
   int int_unicode (String (ascii_of_nat 217) (String (ascii_of_nat 163) ""))
   = int_unicode (String (ascii_of_nat 217) (String (ascii_of_nat 163) ""))).
Proof.
  assert (forall rec,
     movie_title int_unicode movie_df rec =
     match int int_unicode rec.1 with
     | Ok movie_id =>
         match filter (fun row => movie_id_col row = movie_id) movie_df with
         | row :: _ => Ok (movie_title_col row)
         | [] => Raise IndexError
         end
     | Raise e => Raise e
     end) as Hmovie.
  { intros rec. unfold movie_title, movie_match.
    destruct (int int_unicode rec.1) as [movie_id|e]; [|reflexivity].
    rewrite values0_head. destruct (filter _ movie_df); reflexivity. }
  assert (forall rec,
     song_title float_of float_eqb song_df rec =
     match float_of rec.1 with
     | Ok song_id =>
         match List.filter (fun row => float_eqb (short_song_id_col row) song_id)
                 song_df with
         | row :: _ => Ok (title_col row)
         | [] => Raise IndexError
         end
     | Raise e => Raise e
     end) as Hsong.
  { intros rec. unfold song_title, song_match.
    destruct (float_of rec.1) as [song_id|e]; [|reflexivity].
    rewrite values0_head. destruct (List.filter _ song_df); reflexivity. }
  split; [exact Hmovie|]. split; [exact Hsong|].
  split; [|split; [|split; [|split]]].
  - intros uid loc w pre bad post titles movie_id Hrecs Hpre Hid Hnone.
    rewrite show_movies_titles, Hrecs.
    rewrite (show_titles_raise _ _ _ _ _ IndexError _ Hpre), printed_printed;
      [reflexivity|].
    rewrite Hmovie, Hid.
    destruct (filter _ movie_df) as [|row rows] eqn:E; [reflexivity|].
    assert (row ∈ filter (fun row => movie_id_col row = movie_id) movie_df) as Hin
      by (rewrite E; left).
    apply list_elem_of_filter in Hin as [Hkey Hin].
    destruct (Hnone row Hin Hkey).
  - intros u loc w pre bad post titles song_id Hu Hrecs Hpre Hid Hnone.
    rewrite (show_songs_titles _ _ _ _ _ _ Hu), Hrecs.
    rewrite (show_titles_raise _ _ _ _ _ IndexError _ Hpre), printed_printed;
      [reflexivity|].
    rewrite Hsong, Hid.
    destruct (List.filter _ song_df) as [|row rows] eqn:E; [reflexivity|].
    assert (In row (List.filter
              (fun row => float_eqb (short_song_id_col row) song_id) song_df)) as Hin
      by (rewrite E; left; reflexivity).
    apply filter_In in Hin as [Hin Hkey].
    apply list_elem_of_In in Hin. rewrite (Hnone row Hin) in Hkey. discriminate Hkey.
  - intros uid loc w titles Hall.
    rewrite show_movies_titles, (show_titles_ok _ _ _ _ Hall), printed_printed.
    reflexivity.
  - intros u loc w titles Hu Hall.
    rewrite (show_songs_titles _ _ _ _ _ _ Hu), (show_titles_ok _ _ _ _ Hall),
      printed_printed.
    reflexivity.
  - repeat (split; [reflexivity|]). reflexivity.
Qed.


End Display.

(** * The end-to-end scenario *)

(** C1, amended.  For a candidate file whose lines are the three rows of
    user ["100"], for the items ["1"], ["2"] and ["3"], followed by one more
    line, the last one, and an endpoint that answers ["0.9"], ["0.5"] and
    ["0.7"], the scoring routine followed by the display stage ranks item
    ["1"] (score ["0.9"]), then item ["3"] (score ["0.7"]), then item ["2"]
    (score ["0.5"]): all three rows are returned after the cut to nine, three
    calls are made and the three titles are printed in that order. *)
Theorem three_rows_before_last_line endpoint_name int_unicode model_name test_data last :
  readlines test_data
  = [movie_line "100" "1"; movie_line "100" "2"; movie_line "100" "3"; last] ->
  ranked (score_movies scripted endpoint_name model_name (str (PyInt 100))
            (readlines test_data) (start scenario_answers))
  = Ok [("1", "0.9"); ("3", "0.7"); ("2", "0.5")] /\
  get_recommendations_for_user scripted endpoint_name int_unicode abc_movie_df model_name
    (PyInt 100) true test_data (start scenario_answers)
  = (Ok tt,
     World []
       [Request endpoint_name "text/csv" model_name ("100,1,7" +:+ nl);
        Request endpoint_name "text/csv" model_name ("100,2,7" +:+ nl);
        Request endpoint_name "text/csv" model_name ("100,3,7" +:+ nl)]
       [movie_header "100"; title_line "A"; title_line "C"; title_line "B"]).
Proof.
  intros Hlines. unfold get_recommendations_for_user. rewrite Hlines.
  split; reflexivity.
Qed.

(** The scenario as the claim words it: on the file of exactly three rows
    the last row is not scored; two items are ranked, the answer ["0.7"] is
    never asked for, and the ranking is not the one of three items. *)
Lemma three_row_file_ranks_two :
  readlines three_rows
  = [movie_line "100" "1"; movie_line "100" "2"; movie_line "100" "3"] /\
  ranked (score_movies scripted "endpoint" "movie-rec-model.tar.gz" (str (PyInt 100))
            (readlines three_rows) (start scenario_answers))
  = Ok [("1", "0.9"); ("2", "0.5")] /\
  ranked (score_movies scripted "endpoint" "movie-rec-model.tar.gz" (str (PyInt 100))
            (readlines three_rows) (start scenario_answers))
  <> Ok [("1", "0.9"); ("3", "0.7"); ("2", "0.5")] /\
  get_recommendations_for_user scripted "endpoint" no_unicode abc_movie_df
    "movie-rec-model.tar.gz" (PyInt 100) true three_rows (start scenario_answers)
  = (Ok tt,
     World ["0.7"]
       [Request "endpoint" "text/csv" "movie-rec-model.tar.gz" ("100,1,7" +:+ nl);
        Request "endpoint" "text/csv" "movie-rec-model.tar.gz" ("100,2,7" +:+ nl)]
       [movie_header "100"; title_line "A"; title_line "B"]).
Proof.
  split; [reflexivity|]. split; [reflexivity|]. split; [|reflexivity].
  intros H. vm_compute in H. discriminate H.
Qed.

Lemma three_rows_before_last_line_witness :
  ranked (score_movies scripted "endpoint" "movie-rec-model.tar.gz" (str (PyInt 100))
            (readlines three_rows_and_one) (start scenario_answers))
  = Ok [("1", "0.9"); ("3", "0.7"); ("2", "0.5")].
Proof.
  exact (proj1 (three_rows_before_last_line "endpoint" no_unicode "movie-rec-model.tar.gz"
                  three_rows_and_one (movie_line "235" "4") eq_refl)).
Defined.

(** The count as the claim words it: two rows of the file are of user
    ["100"], the last line among them, and one recommendation is selected. *)
Lemma last_row_of_user_not_counted :
  length (matching 2 (str (PyInt 100)) (readlines two_users)) = 2%nat /\
  ranked run_two_users = Ok [("1", "0.9")] /\
  length [("1", "0.9")]
  <> (9 `min` length (matching 2 (str (PyInt 100)) (readlines two_users)))%nat.
Proof.
  split; [reflexivity|]. split; [reflexivity|].
  intros H. vm_compute in H. discriminate H.
Qed.

Lemma at_most_nine_selected_witness :
  length (predictions (locals_after run_twelve_lines)) = 11%nat /\
  length (recommendations (predictions (locals_after run_twelve_lines)))
  = (9 `min` length (matching 2 (str (PyInt 100)) (examined twelve_lines)))%nat.
Proof.
  split; [reflexivity|].
  refine (proj2 (proj2 (at_most_nine_selected scripted "endpoint"
    "movie-rec-model.tar.gz" (str (PyInt 100)) twelve_lines (start eleven_answers)
    (locals_after run_twelve_lines) run_twelve_lines.2 2 _))).
  left. split; reflexivity.
Defined.

(** The rule as the claim words it: the last line of the music file is a
    row of the requested user, and neither a call nor a pair is made for it. *)
Lemma last_row_of_user_not_scored :
  last (readlines songs_last_of_user) = Some (music_line "30544.0" "2") /\
  parse_row 1 (music_line "30544.0" "2")
  = Ok (CandidateRow "30544.0" "2" ["30544.0"; "2"; "7" +:+ nl]) /\
  "30544.0" = str (PyStr "30544.0") /\
  run_songs_last_of_user
  = (Ok (Locals [("1", "0.4")] (Some "77.0")),
     World ["0.6"]
       [Request "endpoint" "text/csv" "music-rec-model.tar.gz" ("30544.0,1,7" +:+ nl)]
       []) /\
  request_of "endpoint" "music-rec-model.tar.gz"
    (CandidateRow "30544.0" "2" ["30544.0"; "2"; "7" +:+ nl])
  ∉ requests run_songs_last_of_user.2.
Proof.
  split; [reflexivity|]. split; [reflexivity|]. split; [reflexivity|].
  split; [reflexivity|].
  intros H. vm_compute in H. apply list_elem_of_singleton in H. discriminate H.
Qed.

Lemma scored_iff_same_user_text_witness :
  requests run_two_users.2
  = request_of "endpoint" "movie-rec-model.tar.gz"
      <$> matching 2 (str (PyInt 100)) (examined (readlines two_users)).
Proof.
  destruct (scored_iff_same_user_text scripted "endpoint" "movie-rec-model.tar.gz"
              (PyInt 100) (readlines two_users) (start scenario_answers)
              (locals_after run_two_users) run_two_users.2 2) as (_ & _ & H & _).
  - left. split; reflexivity.
  - exact H.
Defined.

(** The text of the requested id is compared as it is: of the users
    ["100.0"], [" 100"], ["0100"], ["1e2"] and ["100"], only the last is the
    user [100]. *)
Example user_text_is_not_coerced :
  matching 2 (str (PyInt 100))
    [movie_line "100.0" "1"; movie_line " 100" "2"; movie_line "0100" "3";
     movie_line "1e2" "4"; movie_line "100" "5"]
  = [CandidateRow "100" "5" ["100"; "5"; "7" +:+ nl]].
Proof. reflexivity. Qed.

Lemma row_fields_after_labels_witness :
  split "," (movie_line "100" "1") = ["5"; "0"; "100"; "1"; "7" +:+ nl] /\
  parse_row 2 (movie_line "100" "1")
  = Ok (CandidateRow "100" "1" ["100"; "1"; "7" +:+ nl]) /\
  movie_step scripted "endpoint" "movie-rec-model.tar.gz" "100"
    (readlines two_users) 0 (Locals [] None) (start scenario_answers)
  = (Ok (Locals [("1", "0.9")] (Some "100")),
     World ["0.5"; "0.7"]
       [Request "endpoint" "text/csv" "movie-rec-model.tar.gz" ("100,1,7" +:+ nl)]
       []).
Proof.
  pose proof (row_fields_after_labels scripted "endpoint" "movie-rec-model.tar.gz"
                "100" (readlines two_users) 0 (movie_line "100" "1")
                (Locals [] None) (start scenario_answers) eq_refl) as H.
  cbv zeta in H. destruct H as (_ & _ & _ & _ & _ & _ & Hsplit & Hmovie & _).
  split.
  - apply (Hsplit ["5"; "0"; "100"; "1"; "7" +:+ nl]);
      [discriminate|repeat constructor|reflexivity].
  - apply (Hmovie "5" "0" "100" "1" ["7" +:+ nl]);
      [repeat constructor|reflexivity].
Defined.

Lemma payload_of_matching_row_witness :
  movie_step scripted "endpoint" "movie-rec-model.tar.gz" "100"
    (readlines two_users) 0 (Locals [] None) (start scenario_answers)
  = (Ok (Locals [("1", "0.9")] (Some "100")),
     World ["0.5"; "0.7"]
       [Request "endpoint" "text/csv" "movie-rec-model.tar.gz" ("100,1,7" +:+ nl)]
       []).
Proof.
  pose proof (payload_of_matching_row scripted "endpoint" "movie-rec-model.tar.gz"
                "100" (readlines two_users) 0 (movie_line "100" "1")
                (Locals [] None) (start scenario_answers) 2
                (CandidateRow "100" "1" ["100"; "1"; "7" +:+ nl])
                eq_refl eq_refl eq_refl) as H.
  cbv zeta in H. destruct H as (_ & _ & H & _). exact (H eq_refl).
Defined.

Lemma equal_scores_keep_file_order_witness :
  filter (fun p => p.2 = "0.91")
    (recommendations (predictions (locals_after run_twelve_lines)))
  = [("2", "0.91"); ("5", "0.91"); ("11", "0.91")] /\
  exists answers,
    length answers = length (matching 2 (str (PyInt 100)) (examined twelve_lines)) /\
    predictions (locals_after run_twelve_lines)
    = zip (row_item <$> matching 2 (str (PyInt 100)) (examined twelve_lines)) answers.
Proof.
  split; [reflexivity|].
  destruct (equal_scores_keep_file_order scripted "endpoint" "movie-rec-model.tar.gz"
              (str (PyInt 100)) twelve_lines (start eleven_answers)
              (locals_after run_twelve_lines) run_twelve_lines.2 2 "0.91")
    as (answers & Hlen & Hpred & _).
  - left. split; reflexivity.
  - exists answers. split; [exact Hlen|exact Hpred].
Defined.

Lemma missing_title_is_fatal_witness :
  show_movies (EP:=list string) no_unicode abc_movie_df "100"
    (Locals [("1", "0.9"); ("2", "0.5"); ("7", "0.8")] None) (start [])
  = (Raise IndexError, World [] [] [movie_header "100"; title_line "A"]) /\
  show_songs (EP:=list string) whole_float_of whole_float_eqb ab_song_df
    (Locals [("2", "0.9"); ("1", "0.5"); ("7", "0.8")] (Some "30544.0")) (start [])
  = (Raise IndexError, World [] [] [song_header "30544.0"; title_line "B"]).
Proof.
  destruct (missing_title_is_fatal (EP:=list string) no_unicode abc_movie_df
              whole_float_of whole_float_eqb ab_song_df)
    as (_ & _ & Hmovie & Hsong & _ & _ & _).
  split.
  - apply (Hmovie "100" _ (start []) [("1", "0.9")] ("7", "0.8") [("2", "0.5")]
             ["A"] 7).
    + reflexivity.
    + repeat constructor.
    + reflexivity.
    + apply Forall_forall. repeat constructor; discriminate.
  - apply (Hsong "30544.0" _ (start []) [("2", "0.9")] ("7", "0.8") [("1", "0.5")]
             ["B"] 7).
    + reflexivity.
    + reflexivity.
    + repeat constructor.
    + reflexivity.
    + apply Forall_forall. repeat constructor.
Defined.


(** The call of the notebook, ['30544.0'], on a file in which the last line
    examined is of user ["77.0"]: the songs of ["30544.0"] are printed under
    the id ["77.0"]. *)
Example songs_printed_under_another_id :
  get_music_recommendations_for_user scripted "endpoint"
    whole_float_of whole_float_eqb ab_song_df "music-rec-model.tar.gz"
    (PyStr "30544.0") true songs_of_two_users (start ["0.4"; "0.6"])
  = (Ok tt,
     World []
       [Request "endpoint" "text/csv" "music-rec-model.tar.gz" ("30544.0,1,7" +:+ nl);
        Request "endpoint" "text/csv" "music-rec-model.tar.gz" ("30544.0,2,7" +:+ nl)]
       [song_header "77.0"; title_line "B"; title_line "A"]).
Proof. reflexivity. Qed.

(** A music file of one line leaves the loop variable unbound, and the
    header cannot be printed. *)
Example one_line_music_file_unbound :
  get_music_recommendations_for_user scripted "endpoint"
    whole_float_of whole_float_eqb ab_song_df "music-rec-model.tar.gz"
    (PyStr "30544.0") true (music_line "30544.0" "1") (start ["0.4"])
  = (Raise UnboundLocalError, start ["0.4"]).
Proof. reflexivity. Qed.

(** * Further properties of the notebook *)

(** ** What the scoring routines call and print, whatever the outcome *)

Lemma rows_of_elem labels lines row :
  row ∈ rows_of labels lines ->
  exists line, line ∈ lines /\ parse_row labels line = Ok row.
Proof.
  unfold rows_of. induction lines as [|line lines IH]; simpl.
  - intros H. apply elem_of_nil in H. destruct H.
  - destruct (parse_row labels line) as [row'|e] eqn:E.
    + intros [->|H]%elem_of_cons.
      * exists line. split; [left|exact E].
      * destruct (IH H) as (l & Hl & Hrow). exists l. split; [right; exact Hl|exact Hrow].
    + intros H. destruct (IH H) as (l & Hl & Hrow).
      exists l. split; [right; exact Hl|exact Hrow].
Qed.

Lemma parse_row_data labels line row :
  parse_row labels line = Ok row ->
  exists rest, row_data row = row_user row :: row_item row :: rest.
Proof.
  rewrite parse_row_drop.
  destruct (drop labels (split "," line)) as [|u [|it rest]]; try discriminate.
  intros [= <-]. simpl. eauto.
Qed.

Section Frames.

Context {EP : Type}.
Variable endpoint : request -> EP -> result string * EP.
Variable endpoint_name : string.

Lemma score_lines_calls_prefix labels m uid lines : forall loc (w : world EP),
  stdout (score_lines endpoint endpoint_name labels m uid lines loc w).2 = stdout w /\
  exists new,
    requests (score_lines endpoint endpoint_name labels m uid lines loc w).2
    = requests w ++ new /\
    new `prefix_of` (request_of endpoint_name m <$> matching labels uid lines).
Proof.
  induction lines as [|line lines IH]; intros loc w.
  - simpl. split; [reflexivity|]. exists []. rewrite app_nil_r.
    split; [reflexivity|apply prefix_nil].
  - unfold score_lines. simpl. unfold bind.
    destruct (parse_row labels line) as [row|e] eqn:Hrow.
    + destruct (decide (row_user row = uid)) as [He|Hne].
      * rewrite (score_line_match _ _ _ _ _ _ _ _ _ Hrow He).
        rewrite (matching_cons_match _ _ _ _ _ Hrow He). simpl.
        destruct (endpoint _ (hosted w)) as [[p|e'] ep].
        -- destruct (IH (Locals (predictions loc ++ [(row_item row, p)])
                           (Some (row_user row)))
                        (World ep (requests w ++ [request_of endpoint_name m row])
                           (stdout w))) as (Hout & new & Hreq & Hpre).
           unfold score_lines in Hout, Hreq.
           split; [exact Hout|].
           exists (request_of endpoint_name m row :: new).
           split; [rewrite Hreq; simpl; rewrite <- app_assoc; reflexivity|].
           apply prefix_cons. exact Hpre.
        -- simpl. split; [reflexivity|].
           exists [request_of endpoint_name m row].
           split; [reflexivity|]. apply prefix_cons, prefix_nil.
      * rewrite (score_line_skip _ _ _ _ _ _ _ _ _ Hrow Hne).
        rewrite (matching_cons_skip _ _ _ _ _ Hrow Hne). apply IH.
    + rewrite (score_line_bad _ _ _ _ _ _ _ _ _ Hrow). simpl.
      split; [reflexivity|]. exists []. rewrite app_nil_r.
      split; [reflexivity|apply prefix_nil].
Qed.

Variable int_unicode : string -> result Z.
Variable movie_df : list movie_row.
Context {float : Type}.
Variable float_of : string -> result float.
Variable float_eqb : float -> float -> bool.
Variable song_df : list (song_row float).

Lemma show_movies_prints uid loc (w : world EP) :
  exists r out, show_movies int_unicode movie_df uid loc w = (r, printed w out).
Proof.
  rewrite show_movies_titles.
  destruct (show_titles_prints (movie_title int_unicode movie_df)
              (recommendations (predictions loc))
              (printed w [movie_header uid])) as (r & out & ->).
  exists r, (movie_header uid :: out). rewrite printed_printed. reflexivity.
Qed.

Lemma show_songs_prints loc (w : world EP) :
  exists r out, show_songs float_of float_eqb song_df loc w = (r, printed w out).
Proof.
  destruct (user loc) as [u|] eqn:Hu.
  - rewrite (show_songs_titles _ _ _ _ _ _ Hu).
    destruct (show_titles_prints (song_title float_of float_eqb song_df)
                (recommendations (predictions loc))
                (printed w [song_header u])) as (r & out & ->).
    exists r, (song_header u :: out). rewrite printed_printed. reflexivity.
  - rewrite (show_songs_unbound _ _ _ _ _ Hu).
    exists (Raise UnboundLocalError), []. rewrite printed_nil. reflexivity.
Qed.

(** The routine is its loop, then its display stage when asked for. *)
Lemma movie_routine_stages model_name user_id show test_data (w : world EP) :
  get_recommendations_for_user endpoint endpoint_name int_unicode movie_df model_name user_id
    show test_data w
  = match score_movies endpoint endpoint_name model_name (str user_id)
            (readlines test_data) w with
    | (Ok loc, w1) =>
        if show then show_movies int_unicode movie_df (str user_id) loc w1 else (Ok tt, w1)
    | (Raise e, w1) => (Raise e, w1)
    end.
Proof.
  unfold get_recommendations_for_user, bind.
  destruct (score_movies _ _ _ _ _ w) as [[loc|e] w1]; [|reflexivity].
  destruct show; reflexivity.
Qed.

Lemma music_routine_stages model_name user_id show test_data (w : world EP) :
  get_music_recommendations_for_user endpoint endpoint_name float_of float_eqb
    song_df model_name user_id show test_data w
  = match score_songs endpoint endpoint_name model_name (str user_id)
            (readlines test_data) w with
    | (Ok loc, w1) =>
        if show then show_songs float_of float_eqb song_df loc w1 else (Ok tt, w1)
    | (Raise e, w1) => (Raise e, w1)
    end.
Proof.
  unfold get_music_recommendations_for_user, bind.
  destruct (score_songs _ _ _ _ _ w) as [[loc|e] w1]; [|reflexivity].
  destruct show; reflexivity.
Qed.

(** The calls and the endpoint state a routine leaves are those its loop
    leaves. *)
Lemma movie_routine_calls model_name user_id show test_data (w : world EP) :
  let run := get_recommendations_for_user endpoint endpoint_name int_unicode movie_df
               model_name user_id show test_data w in
  let loop := score_movies endpoint endpoint_name model_name (str user_id)
                (readlines test_data) w in
  requests run.2 = requests loop.2 /\ hosted run.2 = hosted loop.2 /\
  exists out, stdout run.2 = stdout w ++ out /\ (show = false -> out = []).
Proof.
  intros run loop. unfold run. rewrite movie_routine_stages. fold loop.
  pose proof (proj1 (score_lines_calls_prefix 2 model_name (str user_id)
    (examined (readlines test_data)) (Locals [] None) w)) as Hout.
  rewrite <- score_movies_lines in Hout. fold loop in Hout.
  destruct loop as [[loc|e] w1]; simpl in *;
    [|split; [reflexivity|]; split; [reflexivity|]; exists [];
      rewrite app_nil_r; auto].
  destruct show;
    [|split; [reflexivity|]; split; [reflexivity|]; exists [];
      rewrite app_nil_r; auto].
  destruct (show_movies_prints (str user_id) loc w1) as (r & out & ->).
  simpl. split; [reflexivity|]. split; [reflexivity|].
  exists out. rewrite Hout. split; [reflexivity|discriminate].
Qed.

Lemma music_routine_calls model_name user_id show test_data (w : world EP) :
  let run := get_music_recommendations_for_user endpoint endpoint_name
               float_of float_eqb song_df model_name user_id show test_data w in
  let loop := score_songs endpoint endpoint_name model_name (str user_id)
                (readlines test_data) w in
  requests run.2 = requests loop.2 /\ hosted run.2 = hosted loop.2 /\
  exists out, stdout run.2 = stdout w ++ out /\ (show = false -> out = []).
Proof.
  intros run loop. unfold run. rewrite music_routine_stages. fold loop.
  pose proof (proj1 (score_lines_calls_prefix 1 model_name (str user_id)
    (examined (readlines test_data)) (Locals [] None) w)) as Hout.
  rewrite <- score_songs_lines in Hout. fold loop in Hout.
  destruct loop as [[loc|e] w1]; simpl in *;
    [|split; [reflexivity|]; split; [reflexivity|]; exists [];
      rewrite app_nil_r; auto].
  destruct show;
    [|split; [reflexivity|]; split; [reflexivity|]; exists [];
      rewrite app_nil_r; auto].
  destruct (show_songs_prints loc w1) as (r & out & ->).
  simpl. split; [reflexivity|]. split; [reflexivity|].
  exists out. rewrite Hout. split; [reflexivity|discriminate].
Qed.

End Frames.

Lemma matching_requests_shape endpoint_name model_name labels uid lines :
  Forall (fun req =>
            EndpointName req = endpoint_name /\ ContentType req = "text/csv" /\
            TargetModel req = model_name /\
            exists item rest, Body req = join "," (uid :: item :: rest))
    (request_of endpoint_name model_name <$> matching labels uid lines).
Proof.
  apply Forall_forall. intros req Hreq.
  apply list_elem_of_fmap in Hreq as (row & -> & Hrow).
  apply list_elem_of_filter in Hrow as [Hu Hrow].
  apply rows_of_elem in Hrow as (line & _ & Hparse).
  apply parse_row_data in Hparse as (rest & Hdata).
  repeat split. exists (row_item row), rest.
  unfold request_of. simpl. rewrite Hdata, Hu. reflexivity.
Qed.

Section Safety.

Context {EP : Type}.
Variable endpoint : request -> EP -> result string * EP.
Variable endpoint_name : string.
Variable int_unicode : string -> result Z.
Variable movie_df : list movie_row.
Context {float : Type}.
Variable float_of : string -> result float.
Variable float_eqb : float -> float -> bool.
Variable song_df : list (song_row float).

(** X1.  Whatever the outcome of a routine, with or without display, an
    exception included, the calls it has made to the endpoint are an initial
    segment of the calls for the rows of the requested user among the lines
    before the last, in the order of the file.  Each of them names the
    session's endpoint, the content type [text/csv] and the model given as
    target, and its body starts with the text of the requested id and an
    item: a row of another user is never sent. *)
Theorem calls_are_initial_segment_of_user_rows model_name user_id show test_data
    (w : world EP) :
  (exists new,
     requests (get_recommendations_for_user endpoint endpoint_name int_unicode movie_df
                 model_name user_id show test_data w).2
     = requests w ++ new /\
     new `prefix_of` (request_of endpoint_name model_name
                        <$> matching 2 (str user_id) (examined (readlines test_data))) /\
     Forall (fun req =>
               EndpointName req = endpoint_name /\ ContentType req = "text/csv" /\
               TargetModel req = model_name /\
               exists item rest, Body req = join "," (str user_id :: item :: rest))
       new) /\
  (exists new,
     requests (get_music_recommendations_for_user endpoint endpoint_name
                 float_of float_eqb song_df model_name user_id show test_data w).2
     = requests w ++ new /\
     new `prefix_of` (request_of endpoint_name model_name
                        <$> matching 1 (str user_id) (examined (readlines test_data))) /\
     Forall (fun req =>
               EndpointName req = endpoint_name /\ ContentType req = "text/csv" /\
               TargetModel req = model_name /\
               exists item rest, Body req = join "," (str user_id :: item :: rest))
       new).
Proof.
  split.
  - destruct (movie_routine_calls endpoint endpoint_name int_unicode movie_df model_name
                user_id show test_data w) as (-> & _ & _).
    rewrite score_movies_lines.
    destruct (score_lines_calls_prefix endpoint endpoint_name 2 model_name
                (str user_id) (examined (readlines test_data)) (Locals [] None) w)
      as (_ & new & Hreq & Hpre).
    exists new. split; [exact Hreq|]. split; [exact Hpre|].
    destruct Hpre as [k Hk].
    pose proof (matching_requests_shape endpoint_name model_name 2 (str user_id)
                  (examined (readlines test_data))) as Hall.
    rewrite Hk in Hall. apply Forall_app in Hall as [Hall _]. exact Hall.
  - destruct (music_routine_calls endpoint endpoint_name float_of float_eqb song_df
                model_name user_id show test_data w) as (-> & _ & _).
    rewrite score_songs_lines.
    destruct (score_lines_calls_prefix endpoint endpoint_name 1 model_name
                (str user_id) (examined (readlines test_data)) (Locals [] None) w)
      as (_ & new & Hreq & Hpre).
    exists new. split; [exact Hreq|]. split; [exact Hpre|].
    destruct Hpre as [k Hk].
    pose proof (matching_requests_shape endpoint_name model_name 1 (str user_id)
                  (examined (readlines test_data))) as Hall.
    rewrite Hk in Hall. apply Forall_app in Hall as [Hall _]. exact Hall.
Qed.

(** X2.  [show_predictions] only decides what is printed.  A routine
    called with [False] prints nothing and still scores every row of the
    user; called with [True] it makes the same calls, leaves the endpoint in
    the same state and only adds lines to the output. *)
Theorem show_predictions_only_prints model_name user_id test_data (w : world EP) :
  let movies show :=
    (get_recommendations_for_user endpoint endpoint_name int_unicode movie_df model_name
       user_id show test_data w).2 in
  let songs show :=
    (get_music_recommendations_for_user endpoint endpoint_name float_of float_eqb
       song_df model_name user_id show test_data w).2 in
  (stdout (movies false) = stdout w /\
   requests (movies true) = requests (movies false) /\
   hosted (movies true) = hosted (movies false) /\
   exists out, stdout (movies true) = stdout w ++ out) /\
  (stdout (songs false) = stdout w /\
   requests (songs true) = requests (songs false) /\
   hosted (songs true) = hosted (songs false) /\
   exists out, stdout (songs true) = stdout w ++ out).
Proof.
  intros movies songs. split.
  - destruct (movie_routine_calls endpoint endpoint_name int_unicode movie_df model_name
                user_id false test_data w) as (Hr0 & Hh0 & out0 & Ho0 & Hnil).
    destruct (movie_routine_calls endpoint endpoint_name int_unicode movie_df model_name
                user_id true test_data w) as (Hr1 & Hh1 & out1 & Ho1 & _).
    unfold movies. rewrite Hr0, Hr1, Hh0, Hh1, Ho0, Ho1, (Hnil eq_refl), app_nil_r.
    repeat split. exists out1. reflexivity.
  - destruct (music_routine_calls endpoint endpoint_name float_of float_eqb song_df
                model_name user_id false test_data w) as (Hr0 & Hh0 & out0 & Ho0 & Hnil).
    destruct (music_routine_calls endpoint endpoint_name float_of float_eqb song_df
                model_name user_id true test_data w) as (Hr1 & Hh1 & out1 & Ho1 & _).
    unfold songs. rewrite Hr0, Hr1, Hh0, Hh1, Ho0, Ho1, (Hnil eq_refl), app_nil_r.
    repeat split. exists out1. reflexivity.
Qed.

End Safety.

(** ** A run that is cut short *)

Lemma parse_row_short labels line :
  (length (split "," line) < labels + 2)%nat ->
  parse_row labels line = Raise IndexError.
Proof.
  intros Hlen. rewrite parse_row_drop.
  pose proof (length_drop (split "," line) labels) as Hd.
  destruct (drop labels (split "," line)) as [|u [|it rest]]; try reflexivity.
  simpl in Hd. lia.
Qed.

Section CutShort.

Context {EP : Type}.
Variable endpoint : request -> EP -> result string * EP.
Variable endpoint_name : string.

Lemma score_lines_abort labels m uid init line rest loc (w : world EP) loc1 w1 e w2 :
  score_lines endpoint endpoint_name labels m uid init loc w = (Ok loc1, w1) ->
  score_line endpoint endpoint_name labels m uid line loc1 w1 = (Raise e, w2) ->
  score_lines endpoint endpoint_name labels m uid (init ++ line :: rest) loc w
  = (Raise e, w2).
Proof.
  intros Hinit Hline. unfold score_lines in *. rewrite for_in_app.
  unfold bind at 1. rewrite Hinit. simpl. unfold bind. rewrite Hline. reflexivity.
Qed.

Variable int_unicode : string -> result Z.
Variable movie_df : list movie_row.
Context {float : Type}.
Variable float_of : string -> result float.
Variable float_eqb : float -> float -> bool.
Variable song_df : list (song_row float).

(** X3.  A line with too few fields, fewer than four in the movie file and
    fewer than three in the music file, anywhere before the last line and
    whoever its user, stops the routine with [IndexError] when the loop
    reaches it: the calls made for the rows before it stay made, no row after
    it is scored and, even with [show_predictions], nothing is printed. *)
Theorem short_line_aborts model_name user_id show test_data init bad rest last
    (w : world EP) loc1 w1 :
  readlines test_data = init ++ bad :: rest ++ [last] ->
  ((length (split "," bad) < 4)%nat ->
   score_lines endpoint endpoint_name 2 model_name (str user_id) init
     (Locals [] None) w = (Ok loc1, w1) ->
   get_recommendations_for_user endpoint endpoint_name int_unicode movie_df model_name
     user_id show test_data w = (Raise IndexError, w1) /\
   stdout w1 = stdout w) /\
  ((length (split "," bad) < 3)%nat ->
   score_lines endpoint endpoint_name 1 model_name (str user_id) init
     (Locals [] None) w = (Ok loc1, w1) ->
   get_music_recommendations_for_user endpoint endpoint_name float_of float_eqb
     song_df model_name user_id show test_data w = (Raise IndexError, w1) /\
   stdout w1 = stdout w).
Proof.
  intros Hlines.
  assert (examined (readlines test_data) = init ++ bad :: rest) as Hex.
  { rewrite Hlines.
    change (init ++ bad :: rest ++ [last]) with (init ++ (bad :: rest) ++ [last]).
    rewrite app_assoc. apply examined_snoc. }
  split; intros Hshort Hinit.
  - split.
    + rewrite movie_routine_stages, score_movies_lines, Hex.
      rewrite (score_lines_abort _ _ _ _ _ _ _ _ _ _ IndexError w1 Hinit);
        [reflexivity|].
      apply score_line_bad, parse_row_short. exact Hshort.
    + apply score_lines_ok in Hinit as (_ & _ & _ & _ & _ & Hout & _). exact Hout.
  - split.
    + rewrite music_routine_stages, score_songs_lines, Hex.
      rewrite (score_lines_abort _ _ _ _ _ _ _ _ _ _ IndexError w1 Hinit);
        [reflexivity|].
      apply score_line_bad, parse_row_short. exact Hshort.
    + apply score_lines_ok in Hinit as (_ & _ & _ & _ & _ & Hout & _). exact Hout.
Qed.

(** X4.  A failure of the inference call is fatal.  When the endpoint
    raises on the call for a row of the user, the routine stops with that
    exception: the failed call is the last one made, the pairs accumulated so
    far are lost to the caller, no later row is scored and nothing is
    printed. *)
Theorem endpoint_failure_aborts model_name user_id show test_data init line rest
    last (w : world EP) loc1 w1 labels row e ep :
  readlines test_data = init ++ line :: rest ++ [last] ->
  parse_row labels line = Ok row ->
  row_user row = str user_id ->
  score_lines endpoint endpoint_name labels model_name (str user_id) init
    (Locals [] None) w = (Ok loc1, w1) ->
  endpoint (request_of endpoint_name model_name row) (hosted w1) = (Raise e, ep) ->
  let stopped :=
    (Raise e,
     World ep (requests w1 ++ [request_of endpoint_name model_name row]) (stdout w)) in
  (labels = 2%nat ->
   get_recommendations_for_user endpoint endpoint_name int_unicode movie_df model_name
     user_id show test_data w = stopped) /\
  (labels = 1%nat ->
   get_music_recommendations_for_user endpoint endpoint_name float_of float_eqb
     song_df model_name user_id show test_data w = stopped).
Proof.
  intros Hlines Hrow Hu Hinit Hfail stopped.
  assert (examined (readlines test_data) = init ++ line :: rest) as Hex.
  { rewrite Hlines.
    change (init ++ line :: rest ++ [last]) with (init ++ (line :: rest) ++ [last]).
    rewrite app_assoc. apply examined_snoc. }
  assert (score_lines endpoint endpoint_name labels model_name (str user_id)
            (init ++ line :: rest) (Locals [] None) w = (Raise e, stopped.2)) as Hrun.
  { apply (score_lines_abort _ _ _ _ _ _ _ _ _ _ _ _ Hinit).
    rewrite (score_line_match _ _ _ _ _ _ _ _ _ Hrow Hu), Hfail.
    apply score_lines_ok in Hinit as (_ & _ & _ & _ & _ & -> & _). reflexivity. }
  split; intros ->.
  - rewrite movie_routine_stages, score_movies_lines, Hex, Hrun. reflexivity.
  - rewrite music_routine_stages, score_songs_lines, Hex, Hrun. reflexivity.
Qed.

End CutShort.

(** ** Rows of other users, the payload and the ranking *)

Lemma string_app_assoc (s1 s2 s3 : string) : (s1 +:+ s2) +:+ s3 = s1 +:+ (s2 +:+ s3).
Proof.
  induction s1 as [|a s1 IH]; [reflexivity|].
  change (String a ((s1 +:+ s2) +:+ s3) = String a (s1 +:+ (s2 +:+ s3))).
  rewrite IH. reflexivity.
Qed.

Lemma join_app sep (l1 l2 : list string) :
  l1 <> [] -> l2 <> [] ->
  join sep (l1 ++ l2) = join sep l1 +:+ sep +:+ join sep l2.
Proof.
  intros H1 H2. induction l1 as [|x l1 IH]; [contradiction|].
  destruct l1 as [|y l1].
  - destruct l2 as [|z l2]; [contradiction|]. reflexivity.
  - change (x +:+ sep +:+ join sep ((y :: l1) ++ l2)
            = (x +:+ sep +:+ join sep (y :: l1)) +:+ sep +:+ join sep l2).
    rewrite IH by discriminate. rewrite !string_app_assoc. reflexivity.
Qed.

Lemma sorted_app_elem {A} (R : A -> A -> Prop) (l1 l2 : list A) x y :
  StronglySorted R (l1 ++ l2) -> x ∈ l1 -> y ∈ l2 -> R x y.
Proof.
  induction l1 as [|a l1 IH]; intros Hs Hx Hy.
  - apply elem_of_nil in Hx. destruct Hx.
  - simpl in Hs. apply StronglySorted_inv in Hs as [Hs Ha].
    apply elem_of_cons in Hx as [->|Hx]; [|apply IH; assumption].
    rewrite Forall_forall in Ha. apply Ha. apply elem_of_app. right. exact Hy.
Qed.

Section OtherUsers.

Context {EP : Type}.
Variable endpoint : request -> EP -> result string * EP.
Variable endpoint_name : string.




(** X8.  Every recommendation comes from a row of the requested user.
    After a loop that ends without an exception, each pair selected for
    display has the item of a line before the last of the file that can be
    read and whose user field is the requested text. *)
Theorem recommended_items_are_rows_of_user model_name uid contents (w : world EP)
    loc' w' labels rec :
  labels = 2%nat /\
    score_movies endpoint endpoint_name model_name uid contents w = (Ok loc', w')
  \/ labels = 1%nat /\
    score_songs endpoint endpoint_name model_name uid contents w = (Ok loc', w') ->
  rec ∈ recommendations (predictions loc') ->
  rec ∈ predictions loc' /\
  exists line row,
    line ∈ examined contents /\ parse_row labels line = Ok row /\
    row_user row = uid /\ row_item row = rec.1.
Proof.
  intros H Hrec.
  assert (score_lines endpoint endpoint_name labels model_name uid
            (examined contents) (Locals [] None) w = (Ok loc', w')) as Hrun.
  { destruct H as [[-> H]|[-> H]];
      [rewrite <- score_movies_lines|rewrite <- score_songs_lines]; exact H. }
  apply score_lines_ok in Hrun as (_ & answers & _ & Hpred & _). simpl in Hpred.
  assert (rec ∈ predictions loc') as Hin.
  { unfold recommendations, slice0, sorted_predcitions in Hrec.
    apply subseteq_take in Hrec.
    rewrite (sorted_reverse_perm snd (predictions loc')) in Hrec. exact Hrec. }
  split; [exact Hin|].
  rewrite Hpred in Hin. destruct rec as [item score].
  apply elem_of_zip_l in Hin.
  apply list_elem_of_fmap in Hin as (row & Hitem & Hrow).
  apply list_elem_of_filter in Hrow as [Hu Hrow].
  apply rows_of_elem in Hrow as (line & Hline & Hparse).
  exists line, row. simpl. auto.
Qed.

End OtherUsers.

(** X6.  The payload is the rest of the line.  A line that can be read is
    its label fields joined by commas, a comma, and the payload sent for it:
    the payload is the text of the line after the comma that ends the labels,
    unchanged, its line end included. *)
Theorem payload_is_rest_of_line labels line row :
  (0 < labels)%nat ->
  parse_row labels line = Ok row ->
  length (take labels (split "," line)) = labels /\
  line = join "," (take labels (split "," line)) +:+ "," +:+ join "," (row_data row).
Proof.
  intros Hpos Hrow.
  apply parse_row_fields in Hrow as (Hu & _ & Hdata).
  apply lookup_lt_Some in Hu.
  split; [rewrite length_take; lia|].
  rewrite Hdata, <- join_app.
  - rewrite take_drop. symmetry. apply (join_split ","%char).
  - intros Hnil. apply (f_equal length) in Hnil. rewrite length_take in Hnil.
    simpl in Hnil. lia.
  - intros Hnil. apply (f_equal length) in Hnil. rewrite length_drop in Hnil.
    simpl in Hnil. lia.
Qed.

(** X7.  Nothing left out outranks what is shown.  The accumulated pairs
    are the recommendations and the pairs left out, and the score text of a
    pair left out is at most, in the order of strings, the score text of
    every recommendation. *)
Theorem left_out_never_outranks_shown predictions :
  predictions ≡ₚ recommendations predictions ++ drop 9 (sorted_predcitions predictions) /\
  forall shown hidden,
    shown ∈ recommendations predictions ->
    hidden ∈ drop 9 (sorted_predcitions predictions) ->
    String.leb hidden.2 shown.2 = true.
Proof.
  split.
  - unfold recommendations, slice0. rewrite take_drop.
    symmetry. apply sorted_reverse_perm.
  - intros shown hidden Hs Hh.
    apply (sorted_app_elem (key_ge snd) (recommendations predictions)
             (drop 9 (sorted_predcitions predictions))); [|exact Hs|exact Hh].
    unfold recommendations, slice0. rewrite take_drop.
    apply sorted_reverse_sorted.
Qed.

(** ** Item ids the display stage can and cannot read *)

Lemma list_ascii_of_string_app (s1 s2 : string) :
  list_ascii_of_string (s1 +:+ s2) = list_ascii_of_string s1 ++ list_ascii_of_string s2.
Proof.
  induction s1 as [|a s1 IH]; [reflexivity|].
  change (a :: list_ascii_of_string (s1 +:+ s2)
          = a :: (list_ascii_of_string s1 ++ list_ascii_of_string s2)).
  rewrite IH. reflexivity.
Qed.

Lemma lstrip_snoc_space (l : list ascii) a :
  isspace a = true ->
  lstrip (l ++ [a]) = match lstrip l with [] => [] | _ => lstrip l ++ [a] end.
Proof.
  intros Ha. induction l as [|b l IH]; simpl.
  - rewrite Ha. reflexivity.
  - destruct (isspace b); [exact IH|reflexivity].
Qed.

Lemma strip_snoc_space (l : list ascii) a :
  isspace a = true -> strip (l ++ [a]) = strip l.
Proof.
  intros Ha. unfold strip. rewrite (lstrip_snoc_space _ _ Ha).
  destruct (lstrip l) as [|b l'] eqn:E; [reflexivity|].
  rewrite reverse_snoc. simpl. rewrite Ha. reflexivity.
Qed.

Lemma is_ascii_lstrip l : is_ascii l = true -> is_ascii (lstrip l) = true.
Proof.
  induction l as [|a l IH]; [reflexivity|]. intros H. simpl.
  destruct (isspace a); [|exact H].
  simpl in H. apply andb_prop in H as [_ H]. apply IH. exact H.
Qed.

Lemma is_ascii_reverse l : is_ascii l = true -> is_ascii (reverse l) = true.
Proof.
  unfold is_ascii. rewrite !forallb_forall. intros H a Ha.
  apply H. apply list_elem_of_In. apply list_elem_of_In in Ha.
  apply elem_of_reverse. exact Ha.
Qed.

Lemma is_ascii_strip l : is_ascii l = true -> is_ascii (strip l) = true.
Proof.
  intros H. unfold strip.
  apply is_ascii_reverse, is_ascii_lstrip, is_ascii_reverse, is_ascii_lstrip, H.
Qed.

(** On ASCII text [int()] raises nothing but [ValueError]. *)
Lemma int_raises int_unicode s e :
  is_ascii (list_ascii_of_string s) = true ->
  int int_unicode s = Raise e -> e = ValueError.
Proof.
  intros Hascii. unfold int. rewrite (is_ascii_strip _ Hascii).
  destruct (digits 0 false _); congruence.
Qed.

(** X9.  The line end on an item id does no harm to movies.  When the item
    is the last field of its line, the item id ends with the line end; the
    conversion to an integer gives the same key, so the same title is found
    or the same exception raised. *)
Theorem item_line_end_is_ignored (int_unicode : string -> result Z)
    (movie_df : list movie_row) item score :
  int int_unicode (item +:+ nl) = int int_unicode item /\
  movie_title int_unicode movie_df (item +:+ nl, score)
  = movie_title int_unicode movie_df (item, score).
Proof.
  assert (int int_unicode (item +:+ nl) = int int_unicode item) as H.
  { unfold int. rewrite list_ascii_of_string_app.
    change (list_ascii_of_string nl) with ["010"%char].
    rewrite strip_snoc_space by reflexivity. reflexivity. }
  split; [exact H|]. unfold movie_title. simpl. rewrite H. reflexivity.
Qed.

Section Display2.

Context {EP : Type}.
Variable endpoint : request -> EP -> result string * EP.
Variable endpoint_name : string.
Variable int_unicode : string -> result Z.
Variable movie_df : list movie_row.
Context {float : Type}.
Variable float_of : string -> result float.
Variable float_eqb : float -> float -> bool.
Variable song_df : list (song_row float).

(** X10.  A movie file with no line to examine.  On a file of at most one
    line, the empty file included, the movie routine calls nothing; with
    [show_predictions] it prints the header for the requested id and no
    title, and ends without an exception. *)
Theorem movie_file_without_rows model_name user_id test_data (w : world EP) :
  (length (readlines test_data) <= 1)%nat ->
  get_recommendations_for_user endpoint endpoint_name int_unicode movie_df model_name user_id
    true test_data w
  = (Ok tt, printed w [movie_header (str user_id)]) /\
  get_recommendations_for_user endpoint endpoint_name int_unicode movie_df model_name user_id
    false test_data w
  = (Ok tt, w).
Proof.
  intros Hlen.
  assert (examined (readlines test_data) = []) as Hex.
  { apply length_zero_iff_nil. rewrite examined_length. lia. }
  rewrite !movie_routine_stages, score_movies_lines, Hex.
  split; reflexivity.
Qed.

(** X11.  An item id that cannot be converted is fatal too.  When the
    conversion of the item id of a selected pair to an integer (for movies)
    or to a floating-point number (for songs) raises, the display stage stops
    at that pair with the exception of the conversion, after the titles of
    the pairs before it; nothing is printed for the pairs after it.  For an
    item id of ASCII characters that is not an integer literal, the
    exception of the movie routine is [ValueError]. *)
Theorem unreadable_item_id_is_fatal loc (w : world EP) pre bad post titles e :
  recommendations (predictions loc) = pre ++ bad :: post ->
  (forall uid,
     Forall2 (fun rec title => movie_title int_unicode movie_df rec = Ok title)
       pre titles ->
     int int_unicode bad.1 = Raise e ->
     show_movies int_unicode movie_df uid loc w
     = (Raise e, printed w (movie_header uid :: (title_line <$> titles))) /\
     (is_ascii (list_ascii_of_string bad.1) = true -> e = ValueError)) /\
  (forall u,
     user loc = Some u ->
     Forall2 (fun rec title => song_title float_of float_eqb song_df rec = Ok title)
       pre titles ->
     float_of bad.1 = Raise e ->
     show_songs float_of float_eqb song_df loc w
     = (Raise e, printed w (song_header u :: (title_line <$> titles)))).
Proof.
  intros Hrecs. split.
  - intros uid Hpre Hbad. split.
    + rewrite show_movies_titles, Hrecs.
      rewrite (show_titles_raise _ _ _ _ _ e _ Hpre), printed_printed;
        [reflexivity|].
      unfold movie_title. rewrite Hbad. reflexivity.
    + intros Hascii. apply (int_raises _ _ _ Hascii Hbad).
  - intros u Hu Hpre Hbad.
    rewrite (show_songs_titles _ _ _ _ _ _ Hu), Hrecs.
    rewrite (show_titles_raise _ _ _ _ _ e _ Hpre), printed_printed;
      [reflexivity|].
    unfold song_title. rewrite Hbad. reflexivity.
Qed.

End Display2.

(** ** Provisioning: where the models go, and waiting for the endpoint *)

Section ProvisioningFacts.

Context {AWS : Type}.
Variable aws : aws_call -> AWS -> result string * AWS.
Variable BUCKET : string.
Variable XGB_CONTAINER : string.
Variable endpoint_name : string.
Variable file_repr : string -> string.

Lemma client_call_ok call (w : world (account AWS)) answer next :
  aws call (cloud (hosted w)) = (Ok answer, next) ->
  client_call aws call w
  = (Ok answer,
     World (Account next (calls (hosted w) ++ [call]) (slept (hosted w)))
       (requests w) (stdout w)).
Proof. intros H. unfold client_call. rewrite H. reflexivity. Qed.

(** X12.  A model is uploaded where the endpoint looks for it.
    [create_multi_model_metadata] registers one container in [MultiModel]
    mode whose [ModelDataUrl] is the artifacts prefix of the session bucket,
    and returns that URL.  [copy_model_to_s3] prints one line and uploads the
    file to the session bucket under a key that, for a model name that does
    not start with a slash, is that prefix followed by the model name: the
    object is at the returned URL followed by the name, the name the scoring
    routines pass as target model.  A model name that starts with a slash is
    uploaded under that name itself, outside the prefix. *)
Theorem model_is_uploaded_under_model_url model_name file_obj multi_model_name role
    (w w0 : world (account AWS)) :
  let key := path_join DATA_PREFIX [MULTI_MODEL_ARTIFACTS; model_name] in
  let url := "s3://" +:+ BUCKET
             +:+ "/sagemaker/Recommendations-MultiModelEndpoint/multi_model_artifacts/" in
  (forall answer next,
     aws (CreateModel multi_model_name role [Container XGB_CONTAINER url "MultiModel"])
       (cloud (hosted w)) = (answer, next) ->
     create_multi_model_metadata aws BUCKET XGB_CONTAINER multi_model_name role w
     = (match answer with Ok _ => Ok url | Raise e => Raise e end,
        World (Account next
                 (calls (hosted w)
                  ++ [CreateModel multi_model_name role
                        [Container XGB_CONTAINER url "MultiModel"]])
                 (slept (hosted w)))
          (requests w) (stdout w))) /\
  calls (hosted (copy_model_to_s3 aws BUCKET file_repr model_name file_obj w0).2)
  = calls (hosted w0) ++ [UploadFileobj BUCKET key file_obj] /\
  length (stdout (copy_model_to_s3 aws BUCKET file_repr model_name file_obj w0).2)
  = S (length (stdout w0)) /\
  (String.prefix "/" model_name = false ->
   "s3://" +:+ BUCKET +:+ "/" +:+ key = url +:+ model_name) /\
  (String.prefix "/" model_name = true -> key = model_name).
Proof.
  intros key url. split; [|split; [|split; [|split]]].
  - intros answer next Hcall.
    unfold create_multi_model_metadata, bind, lift.
    change (format "s3://{}/{}/{}/" [BUCKET; DATA_PREFIX; MULTI_MODEL_ARTIFACTS])
      with (Ok url).
    unfold client_call. simpl. rewrite Hcall. destruct answer; reflexivity.
  - unfold copy_model_to_s3, bind, print, client_call. simpl.
    destruct (aws _ (cloud (hosted w0))) as [[a|e] next]; reflexivity.
  - unfold copy_model_to_s3, bind, print, client_call. simpl.
    destruct (aws _ (cloud (hosted w0))) as [[a|e] next]; simpl;
      rewrite length_app; simpl; lia.
  - intros Hrel. unfold key, url, path_join. simpl. rewrite Hrel.
    rewrite !string_app_assoc. reflexivity.
  - intros Habs. unfold key, path_join. simpl. rewrite Habs. reflexivity.
Qed.

Ltac same_sleep :=
  match goal with
  | |- (_, World (Account _ _ ?a) _ _) = (_, World (Account _ _ ?b) _ _) =>
      replace b with a by lia
  end.

Lemma wait_line status :
  format "    {}..." [status] = Ok ("    " +:+ status +:+ "...").
Proof. reflexivity. Qed.

Lemma waiting_turns k : forall status after fuel (w : world (account AWS)),
  status <> "Creating" ->
  describes aws endpoint_name (replicate k "Creating" ++ [status])
    (cloud (hosted w)) after ->
  (k < fuel)%nat ->
  wait_while_creating aws endpoint_name fuel "Creating" w
  = (Ok (Some status),
     World (Account after
              (calls (hosted w) ++ replicate (S k) (DescribeEndpoint endpoint_name))
              (slept (hosted w) + 60 * Z.of_nat (S k)))
       (requests w)
       (stdout w ++ ((fun s => "    " +:+ s +:+ "...")
                       <$> (replicate k "Creating" ++ [status])))).
Proof.
  induction k as [|k IH]; intros status after fuel w Hne Hd Hfuel;
    (destruct fuel as [|fuel]; [lia|]).
  - destruct Hd as (next & Hcall & <-).
    cbn [wait_while_creating]. change (String.eqb "Creating" "Creating") with true.
    cbv iota. unfold bind at 1. unfold sleep at 1.
    unfold bind at 1. erewrite client_call_ok; [|exact Hcall].
    unfold bind at 1. unfold lift. rewrite wait_line.
    unfold bind at 1. unfold print.
    destruct fuel; cbn [wait_while_creating];
      (destruct (String.eqb_spec status "Creating"); [contradiction|]);
      unfold ret; simpl; same_sleep; reflexivity.
  - destruct Hd as (next & Hcall & Hd).
    cbn [wait_while_creating]. change (String.eqb "Creating" "Creating") with true.
    cbv iota. unfold bind at 1. unfold sleep at 1.
    unfold bind at 1. erewrite client_call_ok; [|exact Hcall].
    unfold bind at 1. unfold lift. rewrite wait_line.
    unfold bind at 1. unfold print.
    rewrite (IH status after fuel _ Hne); [|exact Hd|lia].
    simpl. rewrite <- !app_assoc. same_sleep. reflexivity.
Qed.

(** X13.  The waiting cell ends with the first status that is not
    ['Creating'], whatever it is, ['Failed'] included.  When the endpoint
    reports ['Creating'] [n] times and then another status, the cell has
    described the endpoint [n + 1] times, slept [60 n] seconds, printed the
    waiting line, one line for each status after the first report, and
    ['DONE']. *)
Theorem waiting_ends_with_first_other_status n status after fuel
    (w : world (account AWS)) :
  status <> "Creating" ->
  describes aws endpoint_name (replicate n "Creating" ++ [status])
    (cloud (hosted w)) after ->
  (n <= fuel)%nat ->
  wait_for_endpoint aws endpoint_name fuel w
  = (Ok (Some status),
     World (Account after
              (calls (hosted w) ++ replicate (S n) (DescribeEndpoint endpoint_name))
              (slept (hosted w) + 60 * Z.of_nat n))
       (requests w)
       (stdout w
        ++ ["Waiting for " +:+ endpoint_name +:+ " endpoint to be in service..."]
        ++ ((fun s => "    " +:+ s +:+ "...")
              <$> drop 1 (replicate n "Creating" ++ [status]))
        ++ ["DONE"])).
Proof.
  intros Hne Hd Hfuel. unfold wait_for_endpoint.
  unfold bind at 1. unfold lift.
  change (format "Waiting for {} endpoint to be in service..." [endpoint_name])
    with (Ok ("Waiting for " +:+ endpoint_name +:+ " endpoint to be in service...")).
  unfold bind at 1. unfold print at 1.
  destruct n as [|n].
  - destruct Hd as (next & Hcall & <-).
    unfold bind at 1. erewrite client_call_ok; [|exact Hcall].
    unfold bind at 1.
    destruct fuel; cbn [wait_while_creating];
      (destruct (String.eqb_spec status "Creating"); [contradiction|]);
      unfold ret, bind, print; simpl; rewrite <- ?app_assoc; same_sleep;
      reflexivity.
  - destruct Hd as (next & Hcall & Hd).
    unfold bind at 1. erewrite client_call_ok; [|exact Hcall].
    unfold bind at 1.
    rewrite (waiting_turns n status after fuel _ Hne); [|exact Hd|lia].
    unfold ret, bind, print. simpl. rewrite <- !app_assoc. simpl.
    same_sleep. reflexivity.
Qed.

Lemma still_creating fuel : forall w : world (account AWS),
  (forall state, exists next,
     aws (DescribeEndpoint endpoint_name) state = (Ok "Creating", next)) ->
  exists w',
    wait_while_creating aws endpoint_name fuel "Creating" w = (Ok None, w') /\
    slept (hosted w') = slept (hosted w) + 60 * Z.of_nat fuel /\
    length (calls (hosted w')) = (length (calls (hosted w)) + fuel)%nat /\
    requests w' = requests w /\
    exists out, stdout w' = stdout w ++ out /\ "DONE" ∉ out.
Proof.
  induction fuel as [|fuel IH]; intros w Hall.
  - exists w. cbn [wait_while_creating].
    change (String.eqb "Creating" "Creating") with true. cbv iota.
    split; [reflexivity|]. split; [simpl; lia|]. split; [lia|].
    split; [reflexivity|]. exists []. rewrite app_nil_r.
    split; [reflexivity|apply not_elem_of_nil].
  - destruct (Hall (cloud (hosted w))) as (next & Hcall).
    cbn [wait_while_creating]. change (String.eqb "Creating" "Creating") with true.
    cbv iota. unfold bind at 1. unfold sleep at 1.
    unfold bind at 1. erewrite client_call_ok; [|exact Hcall].
    unfold bind at 1. unfold lift. rewrite wait_line.
    unfold bind at 1. unfold print.
    match goal with
    | |- exists w', wait_while_creating _ _ _ _ ?w1 = _ /\ _ =>
        destruct (IH w1 Hall) as (w' & Hrun & Hs & Hc & Hr & out & Ho & Hdone)
    end.
    exists w'. split; [exact Hrun|]. simpl in Hs, Hc, Hr, Ho.
    split; [rewrite Hs; lia|]. split; [rewrite Hc, length_app; simpl; lia|].
    split; [exact Hr|].
    exists (("    " +:+ "Creating" +:+ "...") :: out).
    split; [rewrite Ho, <- app_assoc; reflexivity|].
    intros [H|H]%elem_of_cons; [discriminate H|exact (Hdone H)].
Qed.

(** X14.  While the endpoint keeps reporting ['Creating'] the waiting cell
    does not end: for every number of turns of the loop, the cell is still
    in the loop after them, having slept sixty seconds at each turn and
    described the endpoint once more than it slept, and ['DONE'] has not been
    printed. *)
Theorem waiting_goes_on_while_creating fuel (w : world (account AWS)) :
  (forall state, exists next,
     aws (DescribeEndpoint endpoint_name) state = (Ok "Creating", next)) ->
  exists w',
    wait_for_endpoint aws endpoint_name fuel w = (Ok None, w') /\
    slept (hosted w') = slept (hosted w) + 60 * Z.of_nat fuel /\
    length (calls (hosted w')) = (length (calls (hosted w)) + S fuel)%nat /\
    exists out, stdout w' = stdout w ++ out /\ "DONE" ∉ out.
Proof.
  intros Hall. unfold wait_for_endpoint.
  unfold bind at 1. unfold lift.
  change (format "Waiting for {} endpoint to be in service..." [endpoint_name])
    with (Ok ("Waiting for " +:+ endpoint_name +:+ " endpoint to be in service...")).
  unfold bind at 1. unfold print at 1.
  destruct (Hall (cloud (hosted w))) as (next & Hcall).
  unfold bind at 1. erewrite client_call_ok; [|exact Hcall].
  unfold bind at 1.
  match goal with
  | |- context [wait_while_creating _ _ _ _ ?w1] =>
      destruct (still_creating fuel w1 Hall)
        as (w' & Hrun & Hs & Hc & Hr & out & Ho & Hdone)
  end.
  rewrite Hrun. exists w'. split; [reflexivity|]. simpl in Hs, Hc, Hr, Ho.
  split; [exact Hs|]. split; [rewrite Hc, length_app; simpl; lia|].
  exists (("Waiting for " +:+ endpoint_name +:+ " endpoint to be in service...") :: out).
  split; [rewrite Ho, <- app_assoc; reflexivity|].
  intros [H|H]%elem_of_cons; [|exact (Hdone H)].
  cbv [String.app] in H. discriminate H.
Qed.

End ProvisioningFacts.

(** ** The cell for two users, and the lines of a file *)

Section Cell.

Context {EP : Type}.
Variable endpoint : request -> EP -> result string * EP.
Variable endpoint_name : string.
Variable int_unicode : string -> result Z.
Variable movie_df : list movie_row.

Lemma movie_routine_prefix model_name user_id show test_data (w : world EP) :
  exists new,
    requests (get_recommendations_for_user endpoint endpoint_name int_unicode movie_df
                model_name user_id show test_data w).2
    = requests w ++ new /\
    new `prefix_of` (request_of endpoint_name model_name
                       <$> matching 2 (str user_id) (examined (readlines test_data))).
Proof.
  destruct (movie_routine_calls endpoint endpoint_name int_unicode movie_df model_name
              user_id show test_data w) as (-> & _ & _).
  rewrite score_movies_lines.
  destruct (score_lines_calls_prefix endpoint endpoint_name 2 model_name
              (str user_id) (examined (readlines test_data)) (Locals [] None) w)
    as (_ & new & Hreq & Hpre).
  exists new. auto.
Qed.

(** X15.  The cell serves its two users in turn.  The calls it makes are
    calls for rows of user 100, in the order of the file, followed by calls
    for rows of user 235, all with the movie model as target; the routine for
    235 starts from the endpoint state and the output the routine for 100
    left.  When the routine raises for user 100 the cell stops with that
    exception and nothing is called or printed for user 235. *)
Theorem movie_cell_serves_users_in_turn test_data (w : world EP) :
  let first := get_recommendations_for_user endpoint endpoint_name int_unicode movie_df
                 MOVIE_RECOMMENDATION_MODEL (PyInt 100) true test_data w in
  let calls_for user :=
    request_of endpoint_name MOVIE_RECOMMENDATION_MODEL
      <$> matching 2 user (examined (readlines test_data)) in
  (first.1 = Ok tt ->
   movie_cell endpoint endpoint_name int_unicode movie_df test_data w
   = get_recommendations_for_user endpoint endpoint_name int_unicode movie_df
       MOVIE_RECOMMENDATION_MODEL (PyInt 235) true test_data first.2) /\
  (forall e, first.1 = Raise e ->
     movie_cell endpoint endpoint_name int_unicode movie_df test_data w = (Raise e, first.2)) /\
  exists new100 new235,
    requests (movie_cell endpoint endpoint_name int_unicode movie_df test_data w).2
    = requests w ++ new100 ++ new235 /\
    new100 `prefix_of` calls_for "100" /\
    new235 `prefix_of` calls_for "235" /\
    (first.1 <> Ok tt -> new235 = []).
Proof.
  intros first calls_for.
  assert (movie_cell endpoint endpoint_name int_unicode movie_df test_data w
          = match first with
            | (Ok _, w1) =>
                get_recommendations_for_user endpoint endpoint_name int_unicode movie_df
                  MOVIE_RECOMMENDATION_MODEL (PyInt 235) true test_data w1
            | (Raise e, w1) => (Raise e, w1)
            end) as Hcell.
  { unfold movie_cell, user_ids. cbn [for_in]. unfold bind at 1. fold first.
    destruct first as [[[]|e] w1]; [|reflexivity].
    unfold bind, ret.
    destruct (get_recommendations_for_user _ _ _ _ _ (PyInt 235) _ _ w1)
      as [[[]|e] w2]; reflexivity. }
  destruct (movie_routine_prefix MOVIE_RECOMMENDATION_MODEL (PyInt 100) true
              test_data w) as (new100 & Hreq1 & Hpre1).
  fold first in Hreq1.
  split; [|split].
  - intros Hok. rewrite Hcell. destruct first as [[[]|e] w1]; [reflexivity|].
    discriminate Hok.
  - intros e He. rewrite Hcell. destruct first as [[[]|e'] w1]; simpl in He.
    + discriminate He.
    + injection He as ->. reflexivity.
  - rewrite Hcell. destruct first as [[[]|e] w1]; simpl in *.
    + destruct (movie_routine_prefix MOVIE_RECOMMENDATION_MODEL (PyInt 235) true
                  test_data w1) as (new235 & Hreq2 & Hpre2).
      exists new100, new235. rewrite Hreq2, Hreq1, <- app_assoc.
      split; [reflexivity|]. split; [exact Hpre1|]. split; [exact Hpre2|].
      intros H. contradiction H. reflexivity.
    + exists new100, []. rewrite app_nil_r.
      split; [exact Hreq1|]. split; [exact Hpre1|]. split; [apply prefix_nil|].
      reflexivity.
Qed.

End Cell.

Lemma string_rev_app_app (s1 s2 : string) :
  String.rev_app s1 s2 = String.rev s1 +:+ s2.
Proof.
  unfold String.rev. revert s2. induction s1 as [|a s1 IH]; intros s2; [reflexivity|].
  simpl. rewrite IH, (IH (String a "")), string_app_assoc. reflexivity.
Qed.

Lemma readlines_go_row row : forall cur rest,
  no_line_end row = true ->
  readlines_go cur (row +:+ nl +:+ rest)
  = (String.rev cur +:+ row +:+ nl) :: readlines_go EmptyString rest.
Proof.
  induction row as [|a row IH]; intros cur rest Hrow.
  - change (readlines_go cur (String "010" rest)
            = (String.rev cur +:+ nl) :: readlines_go "" rest).
    cbn [readlines_go]. change (Ascii.eqb "010" "010") with true. cbv iota.
    f_equal. unfold String.rev. cbn [String.rev_app].
    apply string_rev_app_app.
  - simpl in Hrow.
    apply andb_prop in Hrow as [Ha Hrow]. apply andb_prop in Ha as [Hlf Hcr].
    apply negb_true_iff in Hlf, Hcr.
    change (readlines_go cur (String a (row +:+ nl +:+ rest))
            = (String.rev cur +:+ String a (row +:+ nl)) :: readlines_go "" rest).
    cbn [readlines_go]. rewrite Hlf, Hcr.
    rewrite (IH _ _ Hrow). f_equal.
    unfold String.rev at 1. cbn [String.rev_app].
    rewrite string_rev_app_app, string_app_assoc. reflexivity.
Qed.

Lemma readlines_go_last row : forall cur,
  no_line_end row = true ->
  readlines_go cur row
  = match String.rev cur +:+ row with EmptyString => [] | line => [line] end.
Proof.
  induction row as [|a row IH]; intros cur Hrow.
  - cbn [readlines_go].
    replace (String.rev cur +:+ "") with (String.rev cur).
    + destruct cur as [|c cur]; [reflexivity|].
      destruct (String.rev (String c cur)) eqn:E; [|reflexivity].
      unfold String.rev in E. cbn [String.rev_app] in E.
      rewrite string_rev_app_app in E.
      destruct (String.rev cur); discriminate E.
    + induction (String.rev cur) as [|c s IHs]; [reflexivity|].
      change (String c s = String c (s +:+ "")). rewrite <- IHs. reflexivity.
  - simpl in Hrow.
    apply andb_prop in Hrow as [Ha Hrow]. apply andb_prop in Ha as [Hlf Hcr].
    apply negb_true_iff in Hlf, Hcr.
    cbn [readlines_go]. rewrite Hlf, Hcr, (IH _ Hrow).
    unfold String.rev at 1. cbn [String.rev_app].
    rewrite string_rev_app_app, string_app_assoc. reflexivity.
Qed.

Lemma string_app_empty (s : string) : s +:+ "" = s.
Proof.
  induction s as [|c s IH]; [reflexivity|].
  change (String c (s +:+ "") = String c s). rewrite IH. reflexivity.
Qed.

Lemma readlines_rows_then rows last :
  Forall (fun row => no_line_end row = true) rows ->
  no_line_end last = true ->
  readlines (file_of_rows rows +:+ last)
  = ((fun row => row +:+ nl) <$> rows)
    ++ match last with EmptyString => [] | _ => [last] end.
Proof.
  intros Hrows Hlast. unfold readlines.
  induction Hrows as [|row rows Hrow _ IH].
  - change (file_of_rows [] +:+ last) with last.
    rewrite (readlines_go_last _ _ Hlast). destruct last; reflexivity.
  - change (file_of_rows (row :: rows)) with (row +:+ nl +:+ file_of_rows rows).
    rewrite !string_app_assoc, (readlines_go_row _ _ _ Hrow), IH. reflexivity.
Qed.

(** X16.  The lines of a file are its rows.  For a file written row by
    row, each row followed by a line end, [readlines] gives the rows with
    their line ends and no empty line after them, so the lines the loops
    examine are all the rows but the last.  When a last row follows without
    its line end, it is the last line, and the loops examine all the rows
    before it. *)
Theorem lines_of_a_file_are_its_rows rows last :
  Forall (fun row => no_line_end row = true) rows ->
  no_line_end last = true ->
  readlines (file_of_rows rows) = (fun row => row +:+ nl) <$> rows /\
  examined (readlines (file_of_rows rows))
  = (fun row => row +:+ nl) <$> take (length rows - 1) rows /\
  (last <> EmptyString ->
   readlines (file_of_rows rows +:+ last)
   = ((fun row => row +:+ nl) <$> rows) ++ [last] /\
   examined (readlines (file_of_rows rows +:+ last))
   = (fun row => row +:+ nl) <$> rows).
Proof.
  intros Hrows Hlast.
  assert (readlines (file_of_rows rows) = (fun row => row +:+ nl) <$> rows) as Hfile.
  { rewrite <- (string_app_empty (file_of_rows rows)).
    rewrite (readlines_rows_then rows "" Hrows eq_refl), app_nil_r. reflexivity. }
  split; [exact Hfile|]. split.
  - rewrite Hfile. unfold examined. rewrite length_fmap, fmap_take. reflexivity.
  - intros Hne.
    assert (readlines (file_of_rows rows +:+ last)
            = ((fun row => row +:+ nl) <$> rows) ++ [last]) as Hl.
    { rewrite (readlines_rows_then rows last Hrows Hlast).
      destruct last; [contradiction|reflexivity]. }
    split; [exact Hl|]. rewrite Hl. apply examined_snoc.
Qed.

(** ** The further properties at work *)

Lemma short_line_aborts_witness :
  get_recommendations_for_user scripted "endpoint" no_unicode abc_movie_df
    MOVIE_RECOMMENDATION_MODEL (PyInt 100) true movie_file_with_short_line
    (start scenario_answers)
  = (Raise IndexError,
     World ["0.5"; "0.7"]
       [Request "endpoint" "text/csv" MOVIE_RECOMMENDATION_MODEL ("100,1,7" +:+ nl)]
       []).
Proof.
  refine (proj1 (proj1 (short_line_aborts scripted "endpoint" no_unicode abc_movie_df
    whole_float_of whole_float_eqb ab_song_df MOVIE_RECOMMENDATION_MODEL (PyInt 100)
    true movie_file_with_short_line [movie_line "100" "1"] ("5,0" +:+ nl)
    [movie_line "100" "2"] (movie_line "100" "3") (start scenario_answers)
    (Locals [("1", "0.9")] (Some "100")) _ eq_refl) _ eq_refl)).
  vm_compute. lia.
Defined.

Lemma endpoint_failure_aborts_witness :
  get_recommendations_for_user scripted "endpoint" no_unicode abc_movie_df
    MOVIE_RECOMMENDATION_MODEL (PyInt 100) true three_rows_and_one (start ["0.9"])
  = (Raise (EndpointError "no answer left"),
     World []
       [Request "endpoint" "text/csv" MOVIE_RECOMMENDATION_MODEL ("100,1,7" +:+ nl);
        Request "endpoint" "text/csv" MOVIE_RECOMMENDATION_MODEL ("100,2,7" +:+ nl)]
       []).
Proof.
  refine (proj1 (endpoint_failure_aborts scripted "endpoint" no_unicode abc_movie_df
    whole_float_of whole_float_eqb ab_song_df MOVIE_RECOMMENDATION_MODEL (PyInt 100)
    true three_rows_and_one [movie_line "100" "1"] (movie_line "100" "2")
    [movie_line "100" "3"] (movie_line "235" "4") (start ["0.9"])
    (Locals [("1", "0.9")] (Some "100")) _ 2
    (CandidateRow "100" "2" ["100"; "2"; "7" +:+ nl])
    (EndpointError "no answer left") []
    eq_refl eq_refl eq_refl eq_refl eq_refl) eq_refl).
Defined.


Lemma recommended_items_are_rows_of_user_witness :
  exists line row,
    line ∈ examined twelve_lines /\ parse_row 2 line = Ok row /\
    row_user row = str (PyInt 100) /\ row_item row = "11".
Proof.
  refine (proj2 (recommended_items_are_rows_of_user scripted "endpoint"
    MOVIE_RECOMMENDATION_MODEL (str (PyInt 100)) twelve_lines (start eleven_answers)
    (locals_after run_twelve_lines) run_twelve_lines.2 2 ("11", "0.91") _ _)).
  - left. split; reflexivity.
  - vm_compute. do 2 right. left.
Defined.

Lemma payload_is_rest_of_line_witness :
  movie_line "100" "1" = join "," ["5"; "0"] +:+ "," +:+ join "," ["100"; "1"; "7" +:+ nl].
Proof.
  refine (proj2 (payload_is_rest_of_line 2 (movie_line "100" "1")
    (CandidateRow "100" "1" ["100"; "1"; "7" +:+ nl]) _ eq_refl)).
  lia.
Defined.

Lemma left_out_never_outranks_shown_witness :
  String.leb "0.12" "0.30" = true.
Proof.
  refine (proj2 (left_out_never_outranks_shown
    (predictions (locals_after run_twelve_lines))) ("9", "0.30") ("3", "0.12") _ _).
  - vm_compute. do 8 right. left.
  - vm_compute. left.
Defined.

Lemma movie_file_without_rows_witness :
  get_recommendations_for_user scripted "endpoint" no_unicode abc_movie_df
    MOVIE_RECOMMENDATION_MODEL (PyInt 100) true EmptyString (start scenario_answers)
  = (Ok tt, World scenario_answers [] [movie_header "100"]).
Proof.
  refine (proj1 (movie_file_without_rows scripted "endpoint" no_unicode abc_movie_df
    MOVIE_RECOMMENDATION_MODEL (PyInt 100) EmptyString (start scenario_answers) _)).
  vm_compute. lia.
Defined.

Lemma unreadable_item_id_is_fatal_witness :
  show_movies (EP:=list string) no_unicode abc_movie_df "100"
    (Locals [("1", "0.9"); ("30544.0", "0.8")] None) (start [])
  = (Raise ValueError, World [] [] [movie_header "100"; title_line "A"]).
Proof.
  refine (proj1 (proj1 (unreadable_item_id_is_fatal (EP:=list string) no_unicode abc_movie_df
    whole_float_of whole_float_eqb ab_song_df
    (Locals [("1", "0.9"); ("30544.0", "0.8")] None) (start [])
    [("1", "0.9")] ("30544.0", "0.8") [] ["A"] ValueError eq_refl) "100" _ eq_refl)).
  repeat constructor.
Defined.

Lemma model_is_uploaded_under_model_url_witness :
  "s3://" +:+ "bucket" +:+ "/"
  +:+ path_join DATA_PREFIX [MULTI_MODEL_ARTIFACTS; MOVIE_RECOMMENDATION_MODEL]
  = "s3://bucket/sagemaker/Recommendations-MultiModelEndpoint/multi_model_artifacts/"
    +:+ MOVIE_RECOMMENDATION_MODEL.
Proof.
  destruct (model_is_uploaded_under_model_url scripted_aws "bucket" "image"
              buffered_reader_repr MOVIE_RECOMMENDATION_MODEL "bytes" "name" "role"
              (fresh_account []) (fresh_account [])) as (_ & _ & _ & H & _).
  exact (H eq_refl).
Defined.

Lemma waiting_ends_with_first_other_status_witness :
  wait_for_endpoint scripted_aws "endpoint" 2
    (fresh_account ["Creating"; "Creating"; "Failed"])
  = (Ok (Some "Failed"),
     World (Account [] (replicate 3 (DescribeEndpoint "endpoint")) 120) []
       ["Waiting for endpoint endpoint to be in service..."; "    Creating...";
        "    Failed..."; "DONE"]).
Proof.
  refine (waiting_ends_with_first_other_status scripted_aws "endpoint" 2 "Failed" []
    2 (fresh_account ["Creating"; "Creating"; "Failed"]) _ _ _).
  - discriminate.
  - repeat (eexists; split; [reflexivity|]). reflexivity.
  - lia.
Defined.

Lemma waiting_goes_on_while_creating_witness :
  exists w',
    wait_for_endpoint always_creating "endpoint" 3 (fresh_account tt) = (Ok None, w') /\
    slept (hosted w') = 0 + 60 * Z.of_nat 3 /\
    length (calls (hosted w')) = (0 + 4)%nat /\
    exists out, stdout w' = [] ++ out /\ "DONE" ∉ out.
Proof.
  refine (waiting_goes_on_while_creating always_creating "endpoint" 3
    (fresh_account tt) _).
  intros []. exists tt. reflexivity.
Defined.

Lemma movie_cell_serves_users_in_turn_witness :
  movie_cell scripted "endpoint" no_unicode abc_movie_df three_rows_and_one (start ["0.9"])
  = (Raise (EndpointError "no answer left"),
     World []
       [Request "endpoint" "text/csv" MOVIE_RECOMMENDATION_MODEL ("100,1,7" +:+ nl);
        Request "endpoint" "text/csv" MOVIE_RECOMMENDATION_MODEL ("100,2,7" +:+ nl)]
       []).
Proof.
  destruct (movie_cell_serves_users_in_turn scripted "endpoint" no_unicode abc_movie_df
              three_rows_and_one (start ["0.9"])) as (_ & H & _).
  exact (H (EndpointError "no answer left") eq_refl).
Defined.

Lemma lines_of_a_file_are_its_rows_witness :
  examined (readlines (file_of_rows ["5,0,100,1"; "5,0,100,2"] +:+ "5,0,100,3"))
  = ["5,0,100,1" +:+ nl; "5,0,100,2" +:+ nl].
Proof.
  refine (proj2 (proj2 (proj2 (lines_of_a_file_are_its_rows
    ["5,0,100,1"; "5,0,100,2"] "5,0,100,3" _ eq_refl)) _)).
  - repeat constructor.
  - discriminate.
Defined.
